(** * testdatagen: the Python helpers for data generation and statistical tests

    A shallow embedding of the scripts under [src/testdatagen/python]:

    - [chi_squared_test.py], [ks_test.py]: the single-test utilities, whose
      runner functions raise [ValueError] and whose [main] turns every
      exception into an error record on standard error;
    - [statistical_tests.py]: the multi-test module, whose runners wrap
      their whole body in [try/except] and return dictionaries;
    - [normal_distribution.py], [zipf_distribution.py]: the generators,
      which read and write the process-wide NumPy random generator.

    Modelling conventions.
    - A finite Python float is represented by the rational it denotes
      ([Fin q]); rounding and the infinities are outside the model, [NaN]
      is kept because comparisons with it decide several branches.
    - Decoded JSON arrays of numbers are [list Q].
    - A Python dictionary is an association list in insertion order.
    - A Python exception is a value [Raise e] of the [outcome] monad.
    - NumPy, SciPy and [json] are external: their entry points are the
      fields of the classes [Numeric] and [NumpyRandom], and the runners
      are defined for every instance. *)

From Stdlib Require Import ZArith QArith Qround List String Bool Lia Lqa.
Import ListNotations.

Local Open Scope Z_scope.
Local Open Scope string_scope.
Local Open Scope list_scope.

(* ===================================================================== *)
(** ** Python values *)
(* ===================================================================== *)

Module Py.

(** Python floats, up to rounding. *)
Inductive pyfloat : Type :=
| Fin (q : Q)
| NaN.

Definition Qlt_bool (x y : Q) : bool := negb (Qle_bool y x).

(** [a < b], [a <= b], [a > b] on floats: false on NaN. *)
Definition flt (a b : pyfloat) : bool :=
  match a, b with Fin x, Fin y => Qlt_bool x y | _, _ => false end.
Definition fle (a b : pyfloat) : bool :=
  match a, b with Fin x, Fin y => Qle_bool x y | _, _ => false end.
Definition fgt (a b : pyfloat) : bool := flt b a.

Definition fsub (a b : pyfloat) : pyfloat :=
  match a, b with Fin x, Fin y => Fin (x - y) | _, _ => NaN end.

(** JSON-like values held by the result dictionaries. *)
#[warnings="-register-all"]
Inductive value : Type :=
| VNone
| VBool (b : bool)
| VInt (z : Z)
| VFloat (f : pyfloat)
| VStr (s : string)
| VDict (d : list (string * value)).

(** A result dictionary, and a decoded JSON object of numeric parameters. *)
Definition dict : Type := list (string * value).
Definition params_t : Type := list (string * pyfloat).

(** [d.get(k)] *)
Fixpoint dict_get {A : Type} (k : string) (d : list (string * A)) : option A :=
  match d with
  | [] => None
  | (k', v) :: rest => if String.eqb k k' then Some v else dict_get k rest
  end.

(** [d.get(k, default)] *)
Definition dict_get_default {A : Type} (k : string) (default : A)
    (d : list (string * A)) : A :=
  match dict_get k d with Some v => v | None => default end.

(** Exceptions: the class name ([type(e).__name__]) and [str(e)]. *)
Record exn : Type := { exn_type : string; exn_msg : string }.

Definition ValueError (msg : string) : exn :=
  {| exn_type := "ValueError"; exn_msg := msg |}.
Definition IndexError (msg : string) : exn :=
  {| exn_type := "IndexError"; exn_msg := msg |}.
Definition TypeError (msg : string) : exn :=
  {| exn_type := "TypeError"; exn_msg := msg |}.
Definition ZeroDivisionError (msg : string) : exn :=
  {| exn_type := "ZeroDivisionError"; exn_msg := msg |}.

(** A computation that returns or raises. *)
Inductive outcome (A : Type) : Type :=
| Return (a : A)
| Raise (e : exn).
Arguments Return {A} a.
Arguments Raise {A} e.

Definition bind {A B : Type} (m : outcome A) (k : A -> outcome B) : outcome B :=
  match m with
  | Return a => k a
  | Raise e => Raise e
  end.

(** [try: return m  except Exception as e: return h e] *)
Definition try_except {A : Type} (m : outcome A) (h : exn -> A) : A :=
  match m with
  | Return a => a
  | Raise e => h e
  end.

(** [v > x] for a dictionary value [v] and a float [x]. *)
Definition value_gt (v : value) (x : pyfloat) : outcome bool :=
  match v with
  | VFloat f => Return (fgt f x)
  | VInt z => Return (fgt (Fin (inject_Z z)) x)
  | VBool b => Return (fgt (Fin (inject_Z (if b then 1 else 0))) x)
  | _ => Raise (TypeError "'>' not supported between instances")
  end.

End Py.
Export Py.

Declare Scope py_scope.
Delimit Scope py_scope with py.
Notation "x <- m ;; k" := (bind m (fun x => k))
  (at level 61, m at next level, right associativity) : py_scope.
Notation "' p <- m ;; k" := (bind m (fun x => let p := x in k))
  (at level 61, p pattern, m at next level, right associativity) : py_scope.
Local Open Scope py_scope.

(* ===================================================================== *)
(** ** The external libraries *)
(* ===================================================================== *)

(** The NumPy, SciPy and [json] entry points the test runners call.  Each
    may raise.  Array arguments are the decoded number lists. *)
Class Numeric : Type := {
  (** [np.mean(a)], [np.std(a)], [np.min(a)], [np.max(a)] *)
  np_mean : list Q -> outcome pyfloat;
  np_std : list Q -> outcome pyfloat;
  np_min : list Q -> outcome pyfloat;
  np_max : list Q -> outcome pyfloat;
  (** [np.histogram(a, bins=n)[0]] *)
  np_histogram : list Q -> Z -> outcome (list Z);
  (** [stats.chisquare(f_obs, f_exp)]: statistic and p-value *)
  stats_chisquare : list Q -> list Q -> outcome (pyfloat * pyfloat);
  (** [stats.kstest(data, name, args=...)]: statistic and p-value *)
  stats_kstest : list Q -> string -> list pyfloat -> outcome (pyfloat * pyfloat);
  (** [stats.anderson(data, dist=name)]: statistic and critical values *)
  stats_anderson : list Q -> string -> outcome (pyfloat * list pyfloat);
  (** [stats.shapiro(data)]: statistic and p-value *)
  stats_shapiro : list Q -> outcome (pyfloat * pyfloat);
  (** [json.dumps(obj)] *)
  json_dumps : dict -> outcome string
}.

(** The process-wide generator behind [np.random].  [np.random.seed(s)]
    overwrites the state with one determined by [s] (or raises on a seed
    outside the accepted range, leaving the state alone); the samplers read
    the state and leave a new one. *)
Class NumpyRandom : Type := {
  rng : Type;
  np_random_seed : Z -> outcome rng;
  np_random_normal : pyfloat -> pyfloat -> Z -> rng -> outcome (list pyfloat) * rng;
  np_random_zipf : pyfloat -> Z -> rng -> outcome (list Z) * rng
}.

(* ===================================================================== *)
(** ** chi_squared_test.py *)
(* ===================================================================== *)

(** What a command-line utility leaves behind: at most one line on each
    channel and an exit status.  The error record is kept as a dictionary
    (it holds two strings, so serialising it cannot fail). *)
Record process : Type := {
  stdout : option string;
  stderr : option dict;
  exit_code : Z
}.

(** The [except Exception as e] branch shared by the single-test
    utilities. *)
Definition report_error (e : exn) : process :=
  {| stdout := None;
     stderr := Some [("error", VStr (exn_msg e)); ("type", VStr (exn_type e))];
     exit_code := 1 |}.

Definition report_result (line : string) : process :=
  {| stdout := Some line; stderr := None; exit_code := 0 |}.

Module ChiSquaredTest.
Section Runner.
Context {L : Numeric}.

Definition chi_squared_test (observed expected : list Q) (alpha : pyfloat)
  : outcome dict :=
  if negb (List.length observed =? List.length expected)%nat then
    Raise (ValueError "Observed and expected must have same length")
  else if existsb (fun e => Qeq_bool e 0) expected then
    Raise (ValueError "Expected frequencies cannot be zero")
  else
    '(statistic, pvalue) <- stats_chisquare observed expected ;;
    Return [("statistic", VFloat statistic);
            ("pvalue", VFloat pvalue);
            ("significant", VBool (flt pvalue alpha));
            ("alpha", VFloat alpha)].

(** [main], from the [try] on: [observed] and [expected] are the outcomes
    of the two [json.loads] calls. *)
Definition main (observed expected : outcome (list Q)) (alpha : pyfloat)
  : process :=
  try_except
    (observed <- observed ;;
     expected <- expected ;;
     result <- chi_squared_test observed expected alpha ;;
     line <- json_dumps result ;;
     Return (report_result line))
    report_error.

End Runner.
End ChiSquaredTest.

(* ===================================================================== *)
(** ** ks_test.py *)
(* ===================================================================== *)

Module KsTest.
Section Runner.
Context {L : Numeric}.

Definition ks_test (data : list Q) (distribution : string)
    (params : option params_t) : outcome dict :=
  let params := match params with None => [] | Some p => p end in
  if distribution =? "normal" then
    (* the defaults of [params.get] are evaluated before the lookup *)
    data_mean <- np_mean data ;;
    let mean := dict_get_default "mean" data_mean params in
    data_std <- np_std data ;;
    let std := dict_get_default "std" data_std params in
    '(statistic, pvalue) <- stats_kstest data "norm" [mean; std] ;;
    Return [("statistic", VFloat statistic); ("pvalue", VFloat pvalue)]
  else if distribution =? "zipf" then
    let a := dict_get_default "a" (Fin (3 # 2)) params in
    '(statistic, pvalue) <- stats_kstest data "zipf" [a] ;;
    Return [("statistic", VFloat statistic); ("pvalue", VFloat pvalue)]
  else
    Raise (ValueError ("Unsupported distribution: " ++ distribution)).

(** [main], from the [try] on; [params] is [None] when [--params] is
    absent or empty. *)
Definition main (data : outcome (list Q)) (distribution : string)
    (params : outcome (option params_t)) : process :=
  try_except
    (data <- data ;;
     params <- params ;;
     result <- ks_test data distribution params ;;
     line <- json_dumps result ;;
     Return (report_result line))
    report_error.

End Runner.
End KsTest.

(* ===================================================================== *)
(** ** normal_distribution.py, zipf_distribution.py *)
(* ===================================================================== *)

Section Generators.
Context {R : NumpyRandom}.

(** Code that may raise and that reads and writes the process-wide
    generator. *)
Definition gen (A : Type) : Type := rng -> outcome A * rng.

Definition gen_bind {A B : Type} (m : gen A) (k : A -> gen B) : gen B :=
  fun g =>
    match m g with
    | (Return a, g') => k a g'
    | (Raise e, g') => (Raise e, g')
    end.

Definition gen_raise {A : Type} (e : exn) : gen A := fun g => (Raise e, g).

(** [if seed is not None: np.random.seed(seed)] *)
Definition seed_if_given (seed : option Z) : gen unit :=
  fun g =>
    match seed with
    | None => (Return tt, g)
    | Some s =>
        match np_random_seed s with
        | Return g' => (Return tt, g')
        | Raise e => (Raise e, g)
        end
    end.

Definition generate_normal (n : Z) (mean std : pyfloat) (seed : option Z)
  : gen (list pyfloat) :=
  gen_bind (seed_if_given seed) (fun _ =>
  if fle std (Fin 0) then
    gen_raise (ValueError "Standard deviation must be positive")
  else
    np_random_normal mean std n).

Definition generate_zipf (n : Z) (a : pyfloat) (seed : option Z)
  : gen (list Z) :=
  gen_bind (seed_if_given seed) (fun _ => np_random_zipf a n).

End Generators.

(* ===================================================================== *)
(** ** statistical_tests.py *)
(* ===================================================================== *)

Module StatisticalTests.
Section Runners.
Context {L : Numeric}.

(** [{'error': msg, 'success': False}] *)
Definition error_record (msg : string) : dict :=
  [("error", VStr msg); ("success", VBool false)].

(** [except Exception as e: return {'error': str(e), 'success': False}] *)
Definition on_exception (e : exn) : dict := error_record (exn_msg e).

Definition chi_squared_test (observed_freq expected_freq : list Q) : dict :=
  try_except
    (let observed := observed_freq in
     let expected := expected_freq in
     if negb (List.length observed =? List.length expected)%nat then
       Return (error_record
                 "Observed and expected frequencies must have same length")
     else if existsb (fun e => Qle_bool e 0) expected then
       Return (error_record "Expected frequencies must be positive")
     else
       '(chi2_stat, p_value) <- stats_chisquare observed expected ;;
       Return [("test", VStr "chi_squared");
               ("statistic", VFloat chi2_stat);
               ("p_value", VFloat p_value);
               ("significant", VBool (flt p_value (Fin (1 # 20))));
               ("degrees_of_freedom",
                VInt (Z.of_nat (List.length observed) - 1));
               ("success", VBool true)])
    on_exception.

(** [if params:] is false on [None] and on the empty dictionary. *)
Definition truthy (params : option params_t) : bool :=
  match params with
  | Some (_ :: _) => true
  | _ => false
  end.

Definition params_get (k : string) (default : pyfloat)
    (params : option params_t) : pyfloat :=
  match params with
  | Some p => dict_get_default k default p
  | None => default
  end.

(** The success record every branch of [ks_test] ends in, applied to the
    outcome of that branch's [stats.kstest] call. *)
Definition ks_record (distribution : string) (sample_size : nat)
    (call : outcome (pyfloat * pyfloat)) : outcome dict :=
  '(ks_stat, p_value) <- call ;;
  Return [("test", VStr "kolmogorov_smirnov");
          ("distribution", VStr distribution);
          ("statistic", VFloat ks_stat);
          ("p_value", VFloat p_value);
          ("significant", VBool (flt p_value (Fin (1 # 20))));
          ("sample_size", VInt (Z.of_nat sample_size));
          ("success", VBool true)].

Definition ks_test (data : list Q) (distribution : string)
    (params : option params_t) : dict :=
  try_except
    (let data_array := data in
     let finish := ks_record distribution (List.length data_array) in
     if (List.length data_array <? 2)%nat then
       Return (error_record "Data must have at least 2 values")
     else if distribution =? "norm" then
       if truthy params then
         let mean := params_get "mean" (Fin 0) params in
         let std := params_get "std" (Fin 1) params in
         finish (stats_kstest data_array "norm" [mean; std])
       else
         mean <- np_mean data_array ;;
         std <- np_std data_array ;;
         finish (stats_kstest data_array "norm" [mean; std])
     else if distribution =? "uniform" then
       if truthy params then
         let loc := params_get "loc" (Fin 0) params in
         let scale := params_get "scale" (Fin 1) params in
         finish (stats_kstest data_array "uniform" [loc; scale])
       else
         loc <- np_min data_array ;;
         data_max <- np_max data_array ;;
         let scale := fsub data_max loc in
         finish (stats_kstest data_array "uniform" [loc; scale])
     else if distribution =? "expon" then
       if truthy params then
         let scale := params_get "scale" (Fin 1) params in
         finish (stats_kstest data_array "expon" [Fin 0; scale])
       else
         scale <- np_mean data_array ;;
         finish (stats_kstest data_array "expon" [Fin 0; scale])
     else
       Return (error_record ("Unsupported distribution: " ++ distribution)))
    on_exception.

Definition significance_levels : list value :=
  [VInt 15; VInt 10; VInt 5; VFloat (Fin (5 # 2)); VInt 1].

(** [f'{sl}%'] on the five literals above. *)
Definition format_level (sl : value) : string :=
  match sl with
  | VInt 15 => "15%"
  | VInt 10 => "10%"
  | VInt 5 => "5%"
  | VInt 1 => "1%"
  | VFloat _ => "2.5%"
  | _ => "%"
  end.

(** The [for i, critical_value in enumerate(...)] loop, entered at index
    [i] with the current [rejected_at]; [significance_levels[i]] raises
    [IndexError] past the fifth entry. *)
Fixpoint scan_critical_values (statistic : pyfloat) (i : nat)
    (critical_values : list pyfloat) (rejected_at : value) : outcome value :=
  match critical_values with
  | [] => Return rejected_at
  | critical_value :: rest =>
      if fgt statistic critical_value then
        match nth_error significance_levels i with
        | Some sl => scan_critical_values statistic (S i) rest sl
        | None => Raise (IndexError "list index out of range")
        end
      else Return rejected_at
  end.

Definition is_not_none (v : value) : bool :=
  match v with VNone => false | _ => true end.

Definition anderson_darling_test (data : list Q) (distribution : string) : dict :=
  try_except
    (let data_array := data in
     if (List.length data_array <? 2)%nat then
       Return (error_record "Data must have at least 2 values")
     else
       '(statistic, critical_values) <- stats_anderson data_array distribution ;;
       rejected_at <- scan_critical_values statistic 0 critical_values VNone ;;
       Return [("test", VStr "anderson_darling");
               ("distribution", VStr distribution);
               ("statistic", VFloat statistic);
               ("critical_values",
                VDict (map (fun '(sl, cv) => (format_level sl, VFloat cv))
                           (combine significance_levels critical_values)));
               ("rejected_at", rejected_at);
               ("significant", VBool (is_not_none rejected_at));
               ("sample_size", VInt (Z.of_nat (List.length data_array)));
               ("success", VBool true)])
    on_exception.

Definition shapiro_wilk_test (data : list Q) : dict :=
  try_except
    (let data_array := data in
     if (List.length data_array <? 3)%nat then
       Return (error_record "Data must have at least 3 values")
     else if (5000 <? List.length data_array)%nat then
       Return (error_record "Shapiro-Wilk test limited to 5000 samples")
     else
       '(stat, p_value) <- stats_shapiro data_array ;;
       Return [("test", VStr "shapiro_wilk");
               ("statistic", VFloat stat);
               ("p_value", VFloat p_value);
               ("significant", VBool (flt p_value (Fin (1 # 20))));
               ("sample_size", VInt (Z.of_nat (List.length data_array)));
               ("success", VBool true)])
    on_exception.

(** [min(10, int(np.sqrt(n)))] *)
Definition bin_count (n : nat) : Z := Z.min 10 (Z.sqrt (Z.of_nat n)).

(** [n / k] on Python integers. *)
Definition true_div (n k : Z) : outcome Q :=
  if (k =? 0)%Z then Raise (ZeroDivisionError "division by zero")
  else Return (inject_Z n / inject_Z k)%Q.

(** [a.get('p_value', 0) > 0.05 and b.get('p_value', 0) > 0.05] *)
Definition both_above (a b : dict) : outcome bool :=
  above <- value_gt (dict_get_default "p_value" (VInt 0) a) (Fin (1 # 20)) ;;
  if above
  then value_gt (dict_get_default "p_value" (VInt 0) b) (Fin (1 # 20))
  else Return false.

Definition uniformity_test (data : list Q) : dict :=
  try_except
    (let data_array := data in
     let ks_result := ks_test data "uniform" None in
     let n_bins := bin_count (List.length data_array) in
     hist <- np_histogram data_array n_bins ;;
     frequency <- true_div (Z.of_nat (List.length data_array)) n_bins ;;
     let expected := repeat frequency (Z.to_nat n_bins) in
     let chi2_result := chi_squared_test (map inject_Z hist) expected in
     is_uniform <- both_above ks_result chi2_result ;;
     Return [("ks_test", VDict ks_result);
             ("chi_squared_test", VDict chi2_result);
             ("is_uniform", VBool is_uniform);
             ("success", VBool true)])
    on_exception.

End Runners.
End StatisticalTests.

(* ===================================================================== *)
(** ** What the chi-squared routine computes *)
(* ===================================================================== *)

Definition Qsum (l : list Q) : Q := fold_right Qplus 0%Q l.

(** Modelled from the spec: [stats.chisquare] belongs to SciPy and is not
    part of the sources.  The statistic is the sum of (O - E)^2 / E over
    the paired entries. *)
Definition chi2_statistic (observed expected : list Q) : Q :=
  Qsum (map (fun '(o, e) => ((o - e) * (o - e) / e)%Q) (combine observed expected)).

(** Modelled from the spec: the p-value is the upper tail of the
    chi-squared law with [k - 1] degrees of freedom at the statistic, [k]
    the number of entries.  Two facts about that tail are all that is used:
    the law does not exist below one degree of freedom, where SciPy answers
    NaN, and the whole mass lies above a statistic that is not positive.
    The contract covers the calls SciPy accepts in every version: equal
    lengths, no zero expected entry, and equal totals. *)
Definition chisquare_contract (L : Numeric) : Prop :=
  forall observed expected : list Q,
    List.length observed = List.length expected ->
    Forall (fun e => ~ (e == 0)%Q) expected ->
    (Qsum observed == Qsum expected)%Q ->
    exists (s : Q) (p : pyfloat),
      stats_chisquare observed expected = Return (Fin s, p) /\
      (s == chi2_statistic observed expected)%Q /\
      ((List.length observed <= 1)%nat -> p = NaN) /\
      ((2 <= List.length observed)%nat -> (s <= 0)%Q -> p = Fin 1).

(* ===================================================================== *)
(** ** An executable instance of the libraries *)
(* ===================================================================== *)

(** A small instance of [Numeric] and [NumpyRandom] on which the runners
    can be evaluated.  Whatever is rational is computed exactly: minimum,
    maximum, mean, histogram counts, the chi-squared statistic and its
    p-value in the two cases of [chisquare_contract].  The remaining
    statistics have no rational value; they are fixed stand-ins, marked as
    such, and no property stated for every library depends on them. *)
Module Stub.

Definition minimum (x : Q) (rest : list Q) : Q :=
  fold_left (fun m y => if Qle_bool y m then y else m) rest x.
Definition maximum (x : Q) (rest : list Q) : Q :=
  fold_left (fun m y => if Qle_bool m y then y else m) rest x.

Definition mean (a : list Q) : outcome pyfloat :=
  match a with
  | [] => Return NaN
  | _ => Return (Fin (Qred (Qsum a / inject_Z (Z.of_nat (List.length a)))))
  end.

(** Stand-in: the spread of the sample in place of its standard
    deviation. *)
Definition std (a : list Q) : outcome pyfloat :=
  match a with
  | [] => Return NaN
  | x :: rest => Return (Fin (Qred ((maximum x rest - minimum x rest) / 2)))
  end.

Definition min (a : list Q) : outcome pyfloat :=
  match a with
  | [] => Raise (ValueError
            "zero-size array to reduction operation minimum which has no identity")
  | x :: rest => Return (Fin (minimum x rest))
  end.

Definition max (a : list Q) : outcome pyfloat :=
  match a with
  | [] => Raise (ValueError
            "zero-size array to reduction operation maximum which has no identity")
  | x :: rest => Return (Fin (maximum x rest))
  end.

(** Equal-width bins over [lo, hi], the last one closed on the right. *)
Definition bin_index (lo hi : Q) (bins : Z) (x : Q) : Z :=
  Z.min (bins - 1) (Qfloor ((x - lo) * inject_Z bins / (hi - lo))).

Definition count_in (indices : list Z) (b : Z) : Z :=
  Z.of_nat (List.length (filter (Z.eqb b) indices)).

Definition histogram (a : list Q) (bins : Z) : outcome (list Z) :=
  if (bins <=? 0)%Z then
    Raise (ValueError "`bins` must be positive, when an integer")
  else
    let '(lo, hi) :=
      match a with
      | [] => (0%Q, 1%Q)
      | x :: rest => (minimum x rest, maximum x rest)
      end in
    let '(lo, hi) :=
      if Qeq_bool lo hi then ((lo - (1 # 2))%Q, (hi + (1 # 2))%Q) else (lo, hi) in
    let indices := map (bin_index lo hi bins) a in
    Return (map (fun b => count_in indices (Z.of_nat b))
                (seq 0 (Z.to_nat bins))).

(** The statistic is exact.  The p-value is exact where the contract
    fixes it; for a positive statistic it is a stand-in that decreases
    with the statistic. *)
Definition chisquare (observed expected : list Q)
  : outcome (pyfloat * pyfloat) :=
  if negb (List.length observed =? List.length expected)%nat then
    Raise (ValueError "shape mismatch: objects cannot be broadcast to a single shape")
  else if existsb (fun e => Qeq_bool e 0) expected then
    Return (NaN, NaN)
  else
    let s := Qred (chi2_statistic observed expected) in
    let df := Z.of_nat (List.length observed) - 1 in
    Return (Fin s,
            if (df <=? 0)%Z then NaN
            else if Qle_bool s 0 then Fin 1
            else Fin (Qred (1 / (1 + s)))).

(** Stand-in: a fixed statistic and p-value. *)
Definition kstest (data : list Q) (name : string) (args : list pyfloat)
  : outcome (pyfloat * pyfloat) :=
  Return (Fin (1 # 10), Fin (1 # 2)).

(** Stand-in: the spread of the sample as statistic, against the
    large-sample critical values of the normal case. *)
Definition anderson (data : list Q) (name : string)
  : outcome (pyfloat * list pyfloat) :=
  if (name =? "norm") || (name =? "expon") || (name =? "logistic")
     || (name =? "gumbel") then
    match data with
    | [] => Raise (ValueError "zero-size array")
    | x :: rest =>
        Return (Fin (maximum x rest - minimum x rest),
                [Fin (576 # 1000); Fin (656 # 1000); Fin (787 # 1000);
                 Fin (918 # 1000); Fin (1092 # 1000)])
    end
  else Raise (ValueError ("Invalid distribution; dist must be 'norm', "
                          ++ "'expon', 'gumbel', 'extreme1' or 'logistic'.")).

(** Stand-in: a fixed statistic and p-value for the sizes SciPy accepts. *)
Definition shapiro (data : list Q) : outcome (pyfloat * pyfloat) :=
  if (List.length data <? 3)%nat then
    Raise (ValueError "Data must be at least length 3.")
  else Return (Fin (19 # 20), Fin (1 # 2)).

(** Stand-in: the serialised text is not modelled. *)
Definition dumps (d : dict) : outcome string := Return "{}".

#[export] Instance numeric : Numeric := {|
  np_mean := mean;
  np_std := std;
  np_min := min;
  np_max := max;
  np_histogram := histogram;
  stats_chisquare := chisquare;
  stats_kstest := kstest;
  stats_anderson := anderson;
  stats_shapiro := shapiro;
  json_dumps := dumps
|}.

(** The generator state is a number; a seed in range becomes the state. *)
Definition seed (s : Z) : outcome Z :=
  if ((0 <=? s) && (s <? 2 ^ 32))%Z then Return s
  else Raise (ValueError "Seed must be between 0 and 2**32 - 1").

Definition step (g : Z) : Z := (1103515245 * g + 12345) mod 2 ^ 31.

(** Stand-in samplers: [n] values read off successive states. *)
Fixpoint draws {A : Type} (f : Z -> A) (n : nat) (g : Z) : list A * Z :=
  match n with
  | O => ([], g)
  | S n' => let '(rest, g') := draws f n' (step g) in (f (step g) :: rest, g')
  end.

Definition normal (mean std : pyfloat) (n : Z) (g : Z)
  : outcome (list pyfloat) * Z :=
  if (n <? 0)%Z then (Raise (ValueError "negative dimensions are not allowed"), g)
  else
    let '(values, g') :=
      draws (fun s =>
               match mean, std with
               | Fin m, Fin d => Fin (Qred (m + d * ((s mod 2001 - 1000) # 1000)))
               | _, _ => NaN
               end) (Z.to_nat n) g in
    (Return values, g').

Definition zipf (a : pyfloat) (n : Z) (g : Z) : outcome (list Z) * Z :=
  if fgt a (Fin 1) then
    if (n <? 0)%Z then (Raise (ValueError "negative dimensions are not allowed"), g)
    else let '(values, g') := draws (fun s => 1 + s mod 3) (Z.to_nat n) g in
         (Return values, g')
  else (Raise (ValueError "a must be > 1"), g).

#[export] Instance random : NumpyRandom := {|
  rng := Z;
  np_random_seed := seed;
  np_random_normal := normal;
  np_random_zipf := zipf
|}.

End Stub.

(* ===================================================================== *)
(** ** The entry points: JSON text, the dispatcher, the generators' mains,
       the dependency check *)
(* ===================================================================== *)

(** A JSON document with arrays, for the objects the generators and the
    dependency check print. *)
#[warnings="-register-all"]
Inductive json : Type :=
| JNull
| JBool (b : bool)
| JInt (z : Z)
| JFloat (f : pyfloat)
| JStr (s : string)
| JList (items : list json)
| JDict (fields : list (string * json)).

(** [json.loads] on a command-line argument that is to hold an array of
    numbers, or an object of numeric parameters ([null] decodes to [None]),
    and [json.dumps] on a document.  Each may raise. *)
Class JsonText : Type := {
  json_loads_numbers : string -> outcome (list Q);
  json_loads_params : string -> outcome (option params_t);
  json_dumps_document : json -> outcome string
}.

(** [import name]: returns, or raises.  [is_import_error e] is
    [isinstance(e, ImportError)], what [except ImportError] tests: it holds
    of [ImportError] and of every subclass of it, built in or not, so it is
    the environment that decides it, not the name of the class alone. *)
Class Importer : Type := {
  import_module : string -> outcome unit;
  is_import_error : exn -> bool
}.

(** [sys.argv[i]] *)
Definition argv_get (argv : list string) (i : nat) : outcome string :=
  match nth_error argv i with
  | Some a => Return a
  | None => Raise (IndexError "list index out of range")
  end.

Module StatisticalTestsMain.
Section Dispatch.
Context {L : Numeric} {J : JsonText}.

Import StatisticalTests.

(** What the dispatcher leaves behind: the line on standard output, if any,
    and the exit status. *)
Record printed : Type := { line : option string; status : Z }.

(** [print(json.dumps(d)); sys.exit(1)] outside any [try]: an exception of
    [json.dumps] ends the process with status 1 and nothing printed. *)
Definition print_and_fail (d : dict) : printed :=
  match json_dumps d with
  | Return text => {| line := Some text; status := 1 |}
  | Raise _ => {| line := None; status := 1 |}
  end.

(** The [if / elif] chain of [main]: the runner selected by [test_type],
    applied to the decoded arguments. *)
Definition run (test_type : string) (argv : list string) : outcome dict :=
  if test_type =? "chi_squared" then
    a2 <- argv_get argv 2 ;;
    observed <- json_loads_numbers a2 ;;
    a3 <- argv_get argv 3 ;;
    expected <- json_loads_numbers a3 ;;
    Return (chi_squared_test observed expected)
  else if test_type =? "ks_test" then
    a2 <- argv_get argv 2 ;;
    data <- json_loads_numbers a2 ;;
    distribution <-
      (if (3 <? List.length argv)%nat then argv_get argv 3 else Return "norm") ;;
    params <-
      (if (4 <? List.length argv)%nat
       then (a4 <- argv_get argv 4 ;; json_loads_params a4)
       else Return None) ;;
    Return (ks_test data distribution params)
  else if test_type =? "anderson" then
    a2 <- argv_get argv 2 ;;
    data <- json_loads_numbers a2 ;;
    distribution <-
      (if (3 <? List.length argv)%nat then argv_get argv 3 else Return "norm") ;;
    Return (anderson_darling_test data distribution)
  else if test_type =? "shapiro" then
    a2 <- argv_get argv 2 ;;
    data <- json_loads_numbers a2 ;;
    Return (shapiro_wilk_test data)
  else if test_type =? "uniformity" then
    a2 <- argv_get argv 2 ;;
    data <- json_loads_numbers a2 ;;
    Return (uniformity_test data)
  else
    Return (error_record ("Unknown test type: " ++ test_type)).

Definition main (argv : list string) : printed :=
  if (List.length argv <? 2)%nat then
    print_and_fail (error_record "No test specified")
  else
    match argv_get argv 1 with
    | Raise _ => {| line := None; status := 1 |}
    | Return test_type =>
        match (result <- run test_type argv ;; json_dumps result) with
        | Return text => {| line := Some text; status := 0 |}
        | Raise e => print_and_fail (error_record (exn_msg e))
        end
    end.

End Dispatch.
End StatisticalTestsMain.

Module NormalDistribution.
Section Main.
Context {R : NumpyRandom} {J : JsonText}.

Definition seed_document (seed : option Z) : json :=
  match seed with Some s => JInt s | None => JNull end.

(** [main], from the [try] on, with the parsed arguments; the integer
    defaults of [--mean] and [--std] are the floats they denote. *)
Definition main (n : Z) (mean std : pyfloat) (seed : option Z)
  : rng -> process * rng :=
  fun g =>
    match generate_normal n mean std seed g with
    | (Return values, g') =>
        let result :=
          JDict [("values", JList (map JFloat values));
                 ("n", JInt n);
                 ("mean", JFloat mean);
                 ("std", JFloat std);
                 ("seed", seed_document seed)] in
        (try_except (text <- json_dumps_document result ;;
                     Return (report_result text))
                    report_error, g')
    | (Raise e, g') => (report_error e, g')
    end.

End Main.
End NormalDistribution.

Module ZipfDistribution.
Section Main.
Context {R : NumpyRandom} {J : JsonText}.

Definition main (n : Z) (a : pyfloat) (seed : option Z)
  : rng -> process * rng :=
  fun g =>
    match generate_zipf n a seed g with
    | (Return values, g') =>
        let result :=
          JDict [("values", JList (map JInt values));
                 ("n", JInt n);
                 ("a", JFloat a);
                 ("seed", NormalDistribution.seed_document seed)] in
        (try_except (text <- json_dumps_document result ;;
                     Return (report_result text))
                    report_error, g')
    | (Raise e, g') => (report_error e, g')
    end.

End Main.
End ZipfDistribution.

(* ===================================================================== *)
(** ** check_dependencies.py *)
(* ===================================================================== *)

Module CheckDependencies.
Section Check.
Context {I : Importer} {J : JsonText}.

(** [try: import name  except ImportError: missing.append(name)] *)
Definition try_import (name : string) (missing : list string)
  : outcome (list string) :=
  match import_module name with
  | Return _ => Return missing
  | Raise e =>
      if is_import_error e then Return (missing ++ [name])%list else Raise e
  end.

Definition check_dependencies : outcome json :=
  missing <- try_import "numpy" [] ;;
  missing <- try_import "scipy" missing ;;
  Return (JDict [("all_available", JBool (List.length missing =? 0)%nat);
                 ("missing", JList (map JStr missing))]).

Definition main : process :=
  try_except
    (result <- check_dependencies ;;
     text <- json_dumps_document result ;;
     Return (report_result text))
    report_error.

End Check.
End CheckDependencies.

(** Executable instances of the two classes above.  The decoder is a
    stand-in that knows a handful of argument texts; the encoder is a
    stand-in that prints nothing of the document. *)
Module StubIO.

Definition loads_numbers (text : string) : outcome (list Q) :=
  if text =? "[10, 20]" then Return [10 # 1; 20 # 1]%Q
  else if text =? "[10, 20, 30]" then Return [10 # 1; 20 # 1; 30 # 1]%Q
  else if text =? "[1, 2, 4]" then Return [1 # 1; 2 # 1; 4 # 1]%Q
  else if text =? "[]" then Return []
  else Raise {| exn_type := "JSONDecodeError";
                exn_msg := "Expecting value: line 1 column 1 (char 0)" |}.

(** The text of the object with the single field [mean] set to 5. *)
Definition quote : string := String (Ascii.ascii_of_nat 34) EmptyString.
Definition mean_5_text : string := "{" ++ quote ++ "mean" ++ quote ++ ": 5}".

Definition loads_params (text : string) : outcome (option params_t) :=
  if text =? "null" then Return None
  else if text =? "{}" then Return (Some [])
  else if text =? mean_5_text then Return (Some [("mean", Fin (5 # 1))])
  else Raise {| exn_type := "JSONDecodeError";
                exn_msg := "Expecting value: line 1 column 1 (char 0)" |}.

Definition dumps_document (j : json) : outcome string := Return "{}".

#[export] Instance json_text : JsonText := {|
  json_loads_numbers := loads_numbers;
  json_loads_params := loads_params;
  json_dumps_document := dumps_document
|}.

(** The import errors of the standard library: [ImportError] and its
    subclasses [ModuleNotFoundError] and [zipimport.ZipImportError]. *)
Definition standard_import_error (e : exn) : bool :=
  (exn_type e =? "ImportError") || (exn_type e =? "ModuleNotFoundError")
  || (exn_type e =? "ZipImportError").

(** The modules of [installed] import; any other name is not found. *)
Definition importer (installed : list string) : Importer := {|
  import_module := fun name =>
    if existsb (String.eqb name) installed then Return tt
    else Raise {| exn_type := "ModuleNotFoundError";
                  exn_msg := "No module named '" ++ name ++ "'" |};
  is_import_error := standard_import_error
|}.

(** An environment in which every import raises [e]. *)
Definition failing_importer (e : exn) : Importer := {|
  import_module := fun _ => Raise e;
  is_import_error := standard_import_error
|}.

(** A library whose Anderson-Darling routine returns six critical values,
    as SciPy does for the logistic family, all below the statistic. *)
Definition six_levels : Numeric := {|
  np_mean := Stub.mean;
  np_std := Stub.std;
  np_min := Stub.min;
  np_max := Stub.max;
  np_histogram := Stub.histogram;
  stats_chisquare := Stub.chisquare;
  stats_kstest := Stub.kstest;
  stats_anderson := fun _ _ =>
    Return (Fin (2 # 1),
            [Fin (426 # 1000); Fin (563 # 1000); Fin (660 # 1000);
             Fin (769 # 1000); Fin (906 # 1000); Fin (1010 # 1000)]);
  stats_shapiro := Stub.shapiro;
  json_dumps := Stub.dumps
|}.

End StubIO.

(* ===================================================================== *)
(** ** Vocabulary of the statements *)
(* ===================================================================== *)

(** A record fails when it carries [success = False]. *)
Definition failed (d : dict) : Prop := dict_get "success" d = Some (VBool false).
Definition succeeded (d : dict) : Prop := dict_get "success" d = Some (VBool true).

(** The record reports a p-value above 0.05. *)
Definition p_above (d : dict) : bool :=
  match dict_get "p_value" d with
  | Some (VFloat p) => fgt p (Fin (1 # 20))
  | _ => false
  end.

(** The number of leading critical values the statistic exceeds: how far a
    scan from the most lenient level gets before the first level that is
    not exceeded. *)
Fixpoint exceeded_prefix (statistic : pyfloat) (critical_values : list pyfloat)
  : nat :=
  match critical_values with
  | [] => O
  | cv :: rest =>
      if fgt statistic cv then S (exceeded_prefix statistic rest) else O
  end.

(** The strictest level reached after [k] exceeded levels: none for
    [k = 0], else the [k]-th entry of the ladder 15, 10, 5, 2.5, 1. *)
Definition strictest_level (k : nat) : value :=
  match k with
  | O => VNone
  | S j => nth j StatisticalTests.significance_levels VNone
  end.

(** The expected table of the composite: [n / n_bins] in every bin. *)
Definition equal_frequencies (n : nat) : list Q :=
  repeat (inject_Z (Z.of_nat n) / inject_Z (StatisticalTests.bin_count n))%Q
         (Z.to_nat (StatisticalTests.bin_count n)).

(** What [ks_test] and [chi_squared_test] of the multi-test module can
    return: an error record, or a success record with a float p-value. *)
Inductive runner_result (d : dict) : Prop :=
| is_error (msg : string) (E : d = StatisticalTests.error_record msg)
| has_p_value (p : pyfloat) (E : dict_get "p_value" d = Some (VFloat p))
    (S : succeeded d).

(** Case analysis on every test and library call of a runner's body. *)
Ltac split_call :=
  match goal with
  | |- context [np_mean ?a] => destruct (np_mean a)
  | |- context [np_std ?a] => destruct (np_std a)
  | |- context [np_min ?a] => destruct (np_min a)
  | |- context [np_max ?a] => destruct (np_max a)
  | |- context [stats_chisquare ?a ?b] => destruct (stats_chisquare a b) as [ [? ?] | ? ]
  | |- context [stats_kstest ?a ?b ?c] => destruct (stats_kstest a b c) as [ [? ?] | ? ]
  | |- context [if ?b then _ else _] => destruct b
  end.

Ltac split_runner := repeat (cbn [bind try_except]; split_call); cbn [bind try_except].

Ltac solve_shape :=
  solve [ eapply is_error; reflexivity
        | eapply has_p_value; reflexivity ].

(** A record is a result or an error, never both: either [success] is
    false and an [error] message is present, or [success] is true and no
    [error] key exists. *)
Definition result_or_error (d : dict) : Prop :=
  (failed d /\ exists msg, dict_get "error" d = Some (VStr msg)) \/
  (succeeded d /\ dict_get "error" d = None).

(** In a record, [significant] is the comparison of its own p-value, found
    under [key], with [threshold]. *)
Definition significance_follows (key : string) (threshold : pyfloat) (d : dict)
  : Prop :=
  exists p,
    dict_get key d = Some (VFloat p) /\
    dict_get "significant" d = Some (VBool (flt p threshold)).

(** A utility has written exactly one channel: a line on standard output
    with status 0, or an error record on standard error with status 1. *)
Definition one_channel (p : process) : Prop :=
  (exists text, p = report_result text) \/ (exists e, p = report_error e).

(** The import of [name] returns. *)
Definition importable {I : Importer} (name : string) : bool :=
  match import_module name with
  | Return _ => true
  | Raise _ => false
  end.

(** Case analysis on every call of a runner's body, the Anderson-Darling
    scan and the steps of the composite included. *)
Ltac split_step :=
  match goal with
  | |- context [stats_anderson ?a ?b] =>
      destruct (stats_anderson a b) as [ [? ?] | ? ]
  | |- context [stats_shapiro ?a] => destruct (stats_shapiro a) as [ [? ?] | ? ]
  | |- context [np_histogram ?a ?b] => destruct (np_histogram a b)
  | |- context [StatisticalTests.scan_critical_values ?a ?b ?c ?d] =>
      destruct (StatisticalTests.scan_critical_values a b c d)
  | |- context [StatisticalTests.true_div ?a ?b] =>
      destruct (StatisticalTests.true_div a b)
  | |- context [StatisticalTests.both_above ?a ?b] =>
      destruct (StatisticalTests.both_above a b)
  end.

Ltac split_body :=
  repeat (cbn [bind try_except]; first [ split_step | split_call ]);
  cbn [bind try_except].

(* ===================================================================== *)
(** ** Basic facts *)
(* ===================================================================== *)

Lemma Qlt_bool_iff (x y : Q) : Qlt_bool x y = true <-> (x < y)%Q.
Proof.
  unfold Qlt_bool. rewrite negb_true_iff. split.
  - intros H. apply Qnot_le_lt. intros Hle.
    apply Qle_bool_iff in Hle. congruence.
  - intros H. destruct (Qle_bool y x) eqn:E; [ | reflexivity ].
    apply Qle_bool_iff in E. exfalso. exact (Qlt_not_le _ _ H E).
Qed.

Lemma length_differs (A B : Type) (a : list A) (b : list B) :
  List.length a <> List.length b ->
  negb (List.length a =? List.length b)%nat = true.
Proof. intros H. apply negb_true_iff, Nat.eqb_neq, H. Qed.

Lemma length_agrees (A B : Type) (a : list A) (b : list B) :
  List.length a = List.length b ->
  negb (List.length a =? List.length b)%nat = false.
Proof. intros H. apply negb_false_iff, Nat.eqb_eq, H. Qed.

Lemma existsb_Qle_0 (l : list Q) :
  existsb (fun e => Qle_bool e 0) l = true <-> Exists (fun e => (e <= 0)%Q) l.
Proof.
  rewrite existsb_exists, Exists_exists.
  split; intros [e [Hin He]]; exists e; split; auto; apply Qle_bool_iff; exact He.
Qed.

Lemma existsb_Qeq_0 (l : list Q) :
  existsb (fun e => Qeq_bool e 0) l = true <-> Exists (fun e => (e == 0)%Q) l.
Proof.
  rewrite existsb_exists, Exists_exists.
  split; intros [e [Hin He]]; exists e; split; auto; apply Qeq_bool_iff; exact He.
Qed.

Section RunnerFacts.
Context {L : Numeric}.

Import StatisticalTests.

(** The multi-test chi-squared runner rejects both malformed shapes
    before it reaches the library. *)
Lemma chi_squared_length_mismatch (observed expected : list Q) :
  List.length observed <> List.length expected ->
  chi_squared_test observed expected =
  error_record "Observed and expected frequencies must have same length".
Proof.
  intros H. unfold chi_squared_test.
  rewrite (length_differs _ _ _ _ H). reflexivity.
Qed.

Lemma chi_squared_not_positive (observed expected : list Q) :
  List.length observed = List.length expected ->
  Exists (fun e => (e <= 0)%Q) expected ->
  chi_squared_test observed expected =
  error_record "Expected frequencies must be positive".
Proof.
  intros Hlen H. unfold chi_squared_test.
  rewrite (length_agrees _ _ _ _ Hlen).
  apply existsb_Qle_0 in H. cbv zeta. rewrite H. reflexivity.
Qed.

(** The single-test utility rejects a length mismatch and a zero entry,
    by raising. *)
Lemma cli_chi_squared_length_mismatch (observed expected : list Q)
    (alpha : pyfloat) :
  List.length observed <> List.length expected ->
  ChiSquaredTest.chi_squared_test observed expected alpha =
  Raise (ValueError "Observed and expected must have same length").
Proof.
  intros H. unfold ChiSquaredTest.chi_squared_test.
  rewrite (length_differs _ _ _ _ H). reflexivity.
Qed.

Lemma cli_chi_squared_zero (observed expected : list Q) (alpha : pyfloat) :
  List.length observed = List.length expected ->
  Exists (fun e => (e == 0)%Q) expected ->
  ChiSquaredTest.chi_squared_test observed expected alpha =
  Raise (ValueError "Expected frequencies cannot be zero").
Proof.
  intros Hlen H. unfold ChiSquaredTest.chi_squared_test.
  rewrite (length_agrees _ _ _ _ Hlen).
  apply existsb_Qeq_0 in H. rewrite H. reflexivity.
Qed.

(** Past its two guards the single-test utility hands the tables to the
    library unchanged. *)
Lemma cli_chi_squared_passes (observed expected : list Q) (alpha : pyfloat) :
  List.length observed = List.length expected ->
  Forall (fun e => ~ (e == 0)%Q) expected ->
  ChiSquaredTest.chi_squared_test observed expected alpha =
  ('(statistic, pvalue) <- stats_chisquare observed expected ;;
   Return [("statistic", VFloat statistic);
           ("pvalue", VFloat pvalue);
           ("significant", VBool (flt pvalue alpha));
           ("alpha", VFloat alpha)]).
Proof.
  intros Hlen H. unfold ChiSquaredTest.chi_squared_test.
  rewrite (length_agrees _ _ _ _ Hlen).
  destruct (existsb (fun e => Qeq_bool e 0) expected) eqn:E; [ | reflexivity ].
  apply existsb_Qeq_0, Exists_exists in E. destruct E as [e [Hin He]].
  rewrite Forall_forall in H. exfalso. exact (H e Hin He).
Qed.

Lemma ks_too_few (data : list Q) (distribution : string)
    (params : option params_t) :
  (List.length data < 2)%nat ->
  ks_test data distribution params =
  error_record "Data must have at least 2 values".
Proof.
  intros H. unfold ks_test. apply Nat.ltb_lt in H. cbv zeta. rewrite H.
  reflexivity.
Qed.

Lemma ks_unsupported (data : list Q) (distribution : string)
    (params : option params_t) :
  (2 <= List.length data)%nat ->
  distribution <> "norm" -> distribution <> "uniform" ->
  distribution <> "expon" ->
  ks_test data distribution params =
  error_record ("Unsupported distribution: " ++ distribution).
Proof.
  intros H Hn Hu He. unfold ks_test. cbv zeta.
  apply Nat.ltb_ge in H. rewrite H.
  apply String.eqb_neq in Hn, Hu, He. rewrite Hn, Hu, He. reflexivity.
Qed.

Lemma anderson_too_few (data : list Q) (distribution : string) :
  (List.length data < 2)%nat ->
  anderson_darling_test data distribution =
  error_record "Data must have at least 2 values".
Proof.
  intros H. unfold anderson_darling_test. apply Nat.ltb_lt in H.
  cbv zeta. rewrite H. reflexivity.
Qed.

Lemma anderson_library_error (data : list Q) (distribution : string) (e : exn) :
  (2 <= List.length data)%nat ->
  stats_anderson data distribution = Raise e ->
  anderson_darling_test data distribution = error_record (exn_msg e).
Proof.
  intros H He. unfold anderson_darling_test. apply Nat.ltb_ge in H.
  cbv zeta. rewrite H, He. reflexivity.
Qed.

Lemma shapiro_too_few (data : list Q) :
  (List.length data < 3)%nat ->
  shapiro_wilk_test data = error_record "Data must have at least 3 values".
Proof.
  intros H. unfold shapiro_wilk_test. apply Nat.ltb_lt in H.
  cbv zeta. rewrite H. reflexivity.
Qed.

Lemma shapiro_too_many (data : list Q) :
  (5000 < List.length data)%nat ->
  shapiro_wilk_test data =
  error_record "Shapiro-Wilk test limited to 5000 samples".
Proof.
  intros H. unfold shapiro_wilk_test. cbv zeta.
  assert (H3 : (List.length data <? 3)%nat = false) by (apply Nat.ltb_ge; lia).
  apply Nat.ltb_lt in H. rewrite H3, H. reflexivity.
Qed.

Lemma shapiro_in_range (data : list Q) (W p : pyfloat) :
  (3 <= List.length data <= 5000)%nat ->
  stats_shapiro data = Return (W, p) ->
  shapiro_wilk_test data =
  [("test", VStr "shapiro_wilk");
   ("statistic", VFloat W);
   ("p_value", VFloat p);
   ("significant", VBool (flt p (Fin (1 # 20))));
   ("sample_size", VInt (Z.of_nat (List.length data)));
   ("success", VBool true)].
Proof.
  intros [Hlo Hhi] Hlib. unfold shapiro_wilk_test. cbv zeta.
  apply Nat.ltb_ge in Hlo. apply Nat.ltb_ge in Hhi.
  rewrite Hlo, Hhi, Hlib. reflexivity.
Qed.

End RunnerFacts.

(* ===================================================================== *)
(** ** The Anderson-Darling scan *)
(* ===================================================================== *)

Section Scan.
Import StatisticalTests.

Lemma level_lookup (i : nat) :
  (i < 5)%nat ->
  nth_error significance_levels i = Some (nth i significance_levels VNone).
Proof.
  intros H.
  do 5 (destruct i as [ | i ]; [ reflexivity | ]). lia.
Qed.

(** The loop, entered at index [i], ends on the level of the last
    exceeded critical value, as long as the ladder is long enough. *)
Lemma scan_critical_values_spec (statistic : pyfloat)
    (critical_values : list pyfloat) :
  forall (i : nat) (rejected_at : value),
    (i + exceeded_prefix statistic critical_values <= 5)%nat ->
    scan_critical_values statistic i critical_values rejected_at =
    Return (match exceeded_prefix statistic critical_values with
            | O => rejected_at
            | S j => nth (i + j) significance_levels VNone
            end).
Proof.
  induction critical_values as [ | cv rest IH ]; intros i rejected_at Hi;
    simpl in *.
  - reflexivity.
  - destruct (fgt statistic cv); [ | reflexivity ].
    rewrite level_lookup by lia.
    rewrite IH by lia.
    destruct (exceeded_prefix statistic rest) as [ | j ].
    + now rewrite Nat.add_0_r.
    + now rewrite Nat.add_succ_comm.
Qed.

(** Past the fifth exceeded level the loop indexes out of the ladder. *)
Lemma scan_critical_values_overflow (statistic : pyfloat)
    (critical_values : list pyfloat) :
  forall (i : nat) (rejected_at : value),
    (i <= 5)%nat ->
    (5 < i + exceeded_prefix statistic critical_values)%nat ->
    scan_critical_values statistic i critical_values rejected_at =
    Raise (IndexError "list index out of range").
Proof.
  induction critical_values as [ | cv rest IH ]; intros i rejected_at Hle Hi;
    simpl in *.
  - lia.
  - destruct (fgt statistic cv); [ | lia ].
    destruct (Nat.eq_dec i 5) as [ -> | Hne ]; [ reflexivity | ].
    rewrite level_lookup by lia.
    apply IH; lia.
Qed.

Lemma strictest_level_allowed (k : nat) :
  (k <= 5)%nat ->
  In (strictest_level k)
     [VNone; VInt 1; VFloat (Fin (5 # 2)); VInt 5; VInt 10; VInt 15].
Proof.
  intros H.
  do 6 (destruct k as [ | k ]; [ simpl; tauto | ]). lia.
Qed.

End Scan.

(* ===================================================================== *)
(** ** The shape of a runner's record, and the composite *)
(* ===================================================================== *)

Section Composite.
Context {L : Numeric}.

Import StatisticalTests.

Lemma chi_squared_shape (observed expected : list Q) :
  runner_result (chi_squared_test observed expected).
Proof.
  unfold chi_squared_test, try_except, bind, on_exception; cbv zeta.
  split_runner; solve_shape.
Qed.

Lemma ks_shape (data : list Q) (distribution : string)
    (params : option params_t) :
  runner_result (ks_test data distribution params).
Proof.
  unfold ks_test, ks_record, try_except, bind, on_exception; cbv zeta.
  split_runner; solve_shape.
Qed.

Lemma failed_not_above (d : dict) :
  runner_result d -> failed d -> p_above d = false.
Proof.
  intros [ msg -> | p E S ] F.
  - reflexivity.
  - unfold succeeded, failed in *. congruence.
Qed.

Lemma value_gt_p_value (d : dict) :
  runner_result d ->
  value_gt (dict_get_default "p_value" (VInt 0) d) (Fin (1 # 20)) =
  Return (p_above d).
Proof.
  intros [ msg -> | p E S ].
  - reflexivity.
  - unfold dict_get_default, p_above. rewrite E. reflexivity.
Qed.

Lemma both_above_spec (a b : dict) :
  runner_result a -> runner_result b ->
  both_above a b = Return (p_above a && p_above b).
Proof.
  intros Ha Hb. unfold both_above.
  rewrite (value_gt_p_value a Ha). simpl.
  destruct (p_above a); simpl.
  - apply value_gt_p_value, Hb.
  - reflexivity.
Qed.

Lemma bin_count_positive (n : nat) : (0 < n)%nat -> 0 < bin_count n.
Proof.
  intros H. unfold bin_count.
  assert (0 < Z.sqrt (Z.of_nat n)) by (apply Z.sqrt_pos; lia).
  lia.
Qed.

(** On a non-empty sample whose histogram is computed, the composite is
    the record built from the two sub-results. *)
Lemma uniformity_composite (data : list Q) (hist : list Z) :
  data <> [] ->
  np_histogram data (bin_count (List.length data)) = Return hist ->
  uniformity_test data =
  let ks_result := ks_test data "uniform" None in
  let chi2_result :=
    chi_squared_test (map inject_Z hist) (equal_frequencies (List.length data)) in
  [("ks_test", VDict ks_result);
   ("chi_squared_test", VDict chi2_result);
   ("is_uniform", VBool (p_above ks_result && p_above chi2_result));
   ("success", VBool true)].
Proof.
  intros Hne Hhist. unfold uniformity_test; cbv zeta.
  rewrite Hhist. simpl bind. unfold true_div.
  assert (Hpos : 0 < bin_count (List.length data)).
  { apply bin_count_positive. destruct data; [ congruence | simpl; lia ]. }
  destruct (bin_count (List.length data) =? 0)%Z eqn:E;
    [ apply Z.eqb_eq in E; lia | ].
  simpl bind.
  rewrite both_above_spec by (apply ks_shape || apply chi_squared_shape).
  reflexivity.
Qed.

(** When the histogram raises, the composite is a bare error record. *)
Lemma uniformity_histogram_error (data : list Q) (e : exn) :
  np_histogram data (bin_count (List.length data)) = Raise e ->
  uniformity_test data = error_record (exn_msg e).
Proof.
  intros H. unfold uniformity_test; cbv zeta. rewrite H. reflexivity.
Qed.

(** The empty sample never gets as far as the chi-squared sub-test. *)
Lemma uniformity_empty : exists msg, uniformity_test [] = error_record msg.
Proof.
  unfold uniformity_test; cbv zeta.
  change (bin_count (List.length (@nil Q))) with 0.
  destruct (np_histogram [] 0) as [ hist | e ].
  - exists "division by zero". reflexivity.
  - exists (exn_msg e). reflexivity.
Qed.

End Composite.

(* ===================================================================== *)
(** ** Validation of the frequency tables *)
(* ===================================================================== *)

(** C1.  The single-test utility does not reject a negative expected
    frequency: on observed [1, 2] and expected [-1, 4] both guards pass and
    the tables reach [stats.chisquare], whatever the library; on the
    executable instance a statistic of -3 comes back.  The multi-test
    runner rejects the same tables with a validation error. *)
Theorem cli_chi_squared_negative_expected_not_rejected :
  (forall (L : Numeric) (alpha : pyfloat),
     ChiSquaredTest.chi_squared_test [1 # 1; 2 # 1]%Q [-1 # 1; 4 # 1]%Q alpha =
     ('(statistic, pvalue) <-
        stats_chisquare [1 # 1; 2 # 1]%Q [-1 # 1; 4 # 1]%Q ;;
      Return [("statistic", VFloat statistic);
              ("pvalue", VFloat pvalue);
              ("significant", VBool (flt pvalue alpha));
              ("alpha", VFloat alpha)])) /\
  @ChiSquaredTest.chi_squared_test Stub.numeric
     [1 # 1; 2 # 1]%Q [-1 # 1; 4 # 1]%Q (Fin (1 # 20)) =
  Return [("statistic", VFloat (Fin (-3 # 1)));
          ("pvalue", VFloat (Fin 1));
          ("significant", VBool false);
          ("alpha", VFloat (Fin (1 # 20)))] /\
  (forall L : Numeric,
     StatisticalTests.chi_squared_test [1 # 1; 2 # 1]%Q [-1 # 1; 4 # 1]%Q =
     StatisticalTests.error_record "Expected frequencies must be positive").
Proof.
  split; [ | split ].
  - intros L alpha. reflexivity.
  - vm_compute. reflexivity.
  - intros L. reflexivity.
Qed.

(* ===================================================================== *)
(** ** The uniformity composite and its sub-tests *)
(* ===================================================================== *)

(** C2, as stated, fails.  On the one-value sample [1] the KS sub-test
    fails (too few values) and is embedded, yet the composite reports
    [success = True]; on the empty sample the KS sub-test fails too, the
    composite is a failed record, and no sub-result is embedded in it. *)
Lemma uniformity_one_value_is_not_a_failed_record :
  failed (@StatisticalTests.ks_test Stub.numeric [1 # 1]%Q "uniform" None) /\
  dict_get "ks_test" (@StatisticalTests.uniformity_test Stub.numeric [1 # 1]%Q) =
    Some (VDict (@StatisticalTests.ks_test Stub.numeric [1 # 1]%Q "uniform" None)) /\
  succeeded (@StatisticalTests.uniformity_test Stub.numeric [1 # 1]%Q) /\
  failed (@StatisticalTests.ks_test Stub.numeric [] "uniform" None) /\
  failed (@StatisticalTests.uniformity_test Stub.numeric []) /\
  dict_get "ks_test" (@StatisticalTests.uniformity_test Stub.numeric []) = None.
Proof. repeat split; vm_compute; reflexivity. Qed.

(** C2, amended.  On a non-empty sample whose histogram is computed, a
    failing sub-test leaves the composite a success record: it embeds both
    sub-results and reports [is_uniform = False].  On the empty sample, or
    when the histogram raises, the composite is a bare error record. *)
Theorem uniformity_subtest_failure_embedded (L : Numeric) (data : list Q) :
  (forall hist : list Z,
     data <> [] ->
     np_histogram data (StatisticalTests.bin_count (List.length data)) =
       Return hist ->
     let ks_result := StatisticalTests.ks_test data "uniform" None in
     let chi2_result :=
       StatisticalTests.chi_squared_test
         (map inject_Z hist) (equal_frequencies (List.length data)) in
     failed ks_result \/ failed chi2_result ->
     StatisticalTests.uniformity_test data =
     [("ks_test", VDict ks_result);
      ("chi_squared_test", VDict chi2_result);
      ("is_uniform", VBool false);
      ("success", VBool true)]) /\
  (data = [] \/
   (exists e,
      np_histogram data (StatisticalTests.bin_count (List.length data)) =
        Raise e) ->
   exists msg,
     StatisticalTests.uniformity_test data = StatisticalTests.error_record msg).
Proof.
  split.
  - intros hist Hne Hhist ks_result chi2_result Hfail.
    rewrite (uniformity_composite data hist Hne Hhist). cbv zeta.
    fold ks_result chi2_result.
    assert (Habove : p_above ks_result && p_above chi2_result = false).
    { destruct Hfail as [ F | F ].
      - rewrite (failed_not_above ks_result) by (apply ks_shape || exact F).
        reflexivity.
      - rewrite (failed_not_above chi2_result)
          by (apply chi_squared_shape || exact F).
        apply andb_false_r. }
    rewrite Habove. reflexivity.
  - intros [ -> | [e He] ].
    + apply uniformity_empty.
    + exists (exn_msg e). apply uniformity_histogram_error, He.
Qed.

(** The one-value sample [1]: the KS sub-test fails, the composite does not. *)
Lemma uniformity_subtest_failure_embedded_witness :
  @StatisticalTests.uniformity_test Stub.numeric [1 # 1]%Q =
  [("ks_test",
    VDict (StatisticalTests.error_record "Data must have at least 2 values"));
   ("chi_squared_test",
    VDict [("test", VStr "chi_squared");
           ("statistic", VFloat (Fin 0));
           ("p_value", VFloat NaN);
           ("significant", VBool false);
           ("degrees_of_freedom", VInt 0);
           ("success", VBool true)]);
   ("is_uniform", VBool false);
   ("success", VBool true)].
Proof.
  apply (proj1 (uniformity_subtest_failure_embedded Stub.numeric [1 # 1]%Q)
               [1]).
  - discriminate.
  - reflexivity.
  - left. reflexivity.
Defined.

(* ===================================================================== *)
(** ** Malformed input *)
(* ===================================================================== *)

(** C3, as stated, fails.  The runner of the single-test chi-squared
    utility raises on a length mismatch, and the runner of the single-test
    KS utility raises on a distribution it does not know. *)
Lemma cli_runners_raise_on_malformed_input :
  @ChiSquaredTest.chi_squared_test Stub.numeric
     [10 # 1; 20 # 1]%Q [10 # 1; 20 # 1; 30 # 1]%Q (Fin (1 # 20)) =
  Raise (ValueError "Observed and expected must have same length") /\
  @KsTest.ks_test Stub.numeric [1 # 1; 2 # 1]%Q "uniform" None =
  Raise (ValueError "Unsupported distribution: uniform").
Proof. split; reflexivity. Qed.

(** C3, amended.  Every runner of the multi-test module answers malformed
    input (length mismatch, too few values, unsupported distribution name,
    size out of bounds, a library exception) with an error record and, by
    its type, raises nothing.  The runners of the two single-test utilities
    raise [ValueError] instead, and it is their [main] that turns the
    exception into an error record on standard error with exit status 1. *)
Theorem malformed_input_is_reported (L : Numeric) :
  (forall observed expected : list Q,
     List.length observed <> List.length expected ->
     StatisticalTests.chi_squared_test observed expected =
     StatisticalTests.error_record
       "Observed and expected frequencies must have same length") /\
  (forall data distribution params,
     (List.length data < 2)%nat ->
     StatisticalTests.ks_test data distribution params =
     StatisticalTests.error_record "Data must have at least 2 values") /\
  (forall data distribution params,
     (2 <= List.length data)%nat ->
     distribution <> "norm" -> distribution <> "uniform" ->
     distribution <> "expon" ->
     StatisticalTests.ks_test data distribution params =
     StatisticalTests.error_record
       ("Unsupported distribution: " ++ distribution)) /\
  (forall data distribution,
     (List.length data < 2)%nat ->
     StatisticalTests.anderson_darling_test data distribution =
     StatisticalTests.error_record "Data must have at least 2 values") /\
  (forall data distribution e,
     (2 <= List.length data)%nat ->
     stats_anderson data distribution = Raise e ->
     StatisticalTests.anderson_darling_test data distribution =
     StatisticalTests.error_record (exn_msg e)) /\
  (forall data,
     (List.length data < 3)%nat ->
     StatisticalTests.shapiro_wilk_test data =
     StatisticalTests.error_record "Data must have at least 3 values") /\
  (forall data,
     (5000 < List.length data)%nat ->
     StatisticalTests.shapiro_wilk_test data =
     StatisticalTests.error_record "Shapiro-Wilk test limited to 5000 samples") /\
  (forall observed expected alpha,
     List.length observed <> List.length expected ->
     ChiSquaredTest.chi_squared_test observed expected alpha =
       Raise (ValueError "Observed and expected must have same length") /\
     ChiSquaredTest.main (Return observed) (Return expected) alpha =
       {| stdout := None;
          stderr := Some [("error",
                           VStr "Observed and expected must have same length");
                          ("type", VStr "ValueError")];
          exit_code := 1 |}) /\
  (forall data distribution params,
     distribution <> "normal" -> distribution <> "zipf" ->
     KsTest.ks_test data distribution params =
       Raise (ValueError ("Unsupported distribution: " ++ distribution)) /\
     KsTest.main (Return data) distribution (Return params) =
       {| stdout := None;
          stderr := Some [("error",
                           VStr ("Unsupported distribution: " ++ distribution));
                          ("type", VStr "ValueError")];
          exit_code := 1 |}).
Proof.
  repeat match goal with |- _ /\ _ => split end.
  - apply chi_squared_length_mismatch.
  - apply ks_too_few.
  - apply ks_unsupported.
  - apply anderson_too_few.
  - apply anderson_library_error.
  - apply shapiro_too_few.
  - apply shapiro_too_many.
  - intros observed expected alpha H.
    assert (E := cli_chi_squared_length_mismatch observed expected alpha H).
    split; [ exact E | ].
    unfold ChiSquaredTest.main. cbn [bind]. rewrite E. reflexivity.
  - intros data distribution params Hn Hz.
    assert (E : KsTest.ks_test data distribution params =
                Raise (ValueError ("Unsupported distribution: " ++ distribution))).
    { unfold KsTest.ks_test. apply String.eqb_neq in Hn, Hz.
      rewrite Hn, Hz. reflexivity. }
    split; [ exact E | ].
    unfold KsTest.main. cbn [bind]. rewrite E. reflexivity.
Qed.

(** A length mismatch and an unknown distribution name, on both surfaces. *)
Lemma malformed_input_is_reported_witness :
  @StatisticalTests.chi_squared_test Stub.numeric
     [10 # 1; 20 # 1]%Q [10 # 1; 20 # 1; 30 # 1]%Q =
  StatisticalTests.error_record
    "Observed and expected frequencies must have same length" /\
  @StatisticalTests.ks_test Stub.numeric [1 # 1; 2 # 1]%Q "zipf" None =
  StatisticalTests.error_record "Unsupported distribution: zipf" /\
  exit_code (@ChiSquaredTest.main Stub.numeric
               (Return [10 # 1; 20 # 1]%Q)
               (Return [10 # 1; 20 # 1; 30 # 1]%Q) (Fin (1 # 20))) = 1.
Proof.
  pose proof (malformed_input_is_reported Stub.numeric)
    as (Hchi & _ & Hks & _ & _ & _ & _ & Hcli & _).
  split; [ | split ].
  - apply Hchi. simpl. lia.
  - apply (Hks [1 # 1; 2 # 1]%Q "zipf" None); [ simpl; lia | | | ]; discriminate.
  - destruct (Hcli [10 # 1; 20 # 1]%Q [10 # 1; 20 # 1; 30 # 1]%Q (Fin (1 # 20)))
      as [_ Hmain]; [ simpl; lia | ].
    rewrite Hmain. reflexivity.
Defined.

(* ===================================================================== *)
(** ** Anderson-Darling *)
(* ===================================================================== *)

Section AndersonDarling.
Context {L : Numeric}.

Import StatisticalTests.

(** The record of an accepted sample, in terms of the scan. *)
Lemma anderson_accepted (data : list Q) (distribution : string)
    (statistic : pyfloat) (critical_values : list pyfloat) :
  (2 <= List.length data)%nat ->
  stats_anderson data distribution = Return (statistic, critical_values) ->
  (exceeded_prefix statistic critical_values <= 5)%nat ->
  let rejected_at :=
    strictest_level (exceeded_prefix statistic critical_values) in
  anderson_darling_test data distribution =
  [("test", VStr "anderson_darling");
   ("distribution", VStr distribution);
   ("statistic", VFloat statistic);
   ("critical_values",
    VDict (map (fun '(sl, cv) => (format_level sl, VFloat cv))
               (combine significance_levels critical_values)));
   ("rejected_at", rejected_at);
   ("significant", VBool (is_not_none rejected_at));
   ("sample_size", VInt (Z.of_nat (List.length data)));
   ("success", VBool true)].
Proof.
  intros Hlen Hlib Hk rejected_at. unfold anderson_darling_test; cbv zeta.
  apply Nat.ltb_ge in Hlen. rewrite Hlen, Hlib. cbn [bind].
  rewrite scan_critical_values_spec by (simpl; exact Hk).
  cbn [bind try_except]. reflexivity.
Qed.

(** The runner accepts exactly the samples of two values or more on which
    the library answers and at most five levels are exceeded. *)
Lemma anderson_accepts_iff (data : list Q) (distribution : string) :
  succeeded (anderson_darling_test data distribution) <->
  (2 <= List.length data)%nat /\
  exists statistic critical_values,
    stats_anderson data distribution = Return (statistic, critical_values) /\
    (exceeded_prefix statistic critical_values <= 5)%nat.
Proof.
  split.
  - intros Hs.
    destruct (Nat.lt_ge_cases (List.length data) 2) as [ Hlt | Hge ].
    { rewrite anderson_too_few in Hs by exact Hlt. discriminate Hs. }
    split; [ exact Hge | ].
    destruct (stats_anderson data distribution) as [ [statistic cvs] | e ] eqn:E.
    + exists statistic, cvs. split; [ reflexivity | ].
      destruct (Nat.le_gt_cases (exceeded_prefix statistic cvs) 5)
        as [ Hle | Hgt ]; [ exact Hle | exfalso ].
      unfold anderson_darling_test in Hs; cbv zeta in Hs.
      apply Nat.ltb_ge in Hge. rewrite Hge, E in Hs. cbn [bind] in Hs.
      rewrite scan_critical_values_overflow in Hs by (simpl; lia).
      discriminate Hs.
    + rewrite (anderson_library_error data distribution e Hge E) in Hs.
      discriminate Hs.
  - intros (Hlen & statistic & cvs & Hlib & Hk).
    rewrite (anderson_accepted data distribution statistic cvs Hlen Hlib Hk).
    reflexivity.
Qed.

End AndersonDarling.

(** X19.  As long as the statistic exceeds at most five leading critical
    values (two values or more, the library returns), the result is a
    success record in which [rejected_at] is the entry of the ladder
    15, 10, 5, 2.5, 1 reached by scanning the critical values in the order
    the library returns them and stopping at the first one not exceeded; it
    is null or one of 1, 2.5, 5, 10, 15; it is non-null only if the
    statistic exceeds the first critical value returned, the one the
    record prints under the key 15%; and [significant] is true exactly
    when it is not null. *)
Theorem anderson_rejected_at (L : Numeric) (data : list Q)
    (distribution : string) (statistic : pyfloat)
    (critical_values : list pyfloat) :
  (2 <= List.length data)%nat ->
  stats_anderson data distribution = Return (statistic, critical_values) ->
  (exceeded_prefix statistic critical_values <= 5)%nat ->
  let result := StatisticalTests.anderson_darling_test data distribution in
  let rejected_at :=
    strictest_level (exceeded_prefix statistic critical_values) in
  succeeded result /\
  dict_get "rejected_at" result = Some rejected_at /\
  In rejected_at
     [VNone; VInt 1; VFloat (Fin (5 # 2)); VInt 5; VInt 10; VInt 15] /\
  (rejected_at <> VNone ->
   exists cv rest,
     critical_values = cv :: rest /\ fgt statistic cv = true /\
     dict_get "15%" (map (fun '(sl, c) =>
                            (StatisticalTests.format_level sl, VFloat c))
                         (combine StatisticalTests.significance_levels
                                  critical_values)) = Some (VFloat cv)) /\
  (dict_get "significant" result = Some (VBool true) <-> rejected_at <> VNone).
Proof.
  intros Hlen Hlib Hk result rejected_at. subst result.
  rewrite (anderson_accepted data distribution statistic critical_values
             Hlen Hlib Hk).
  cbv zeta. fold rejected_at.
  split; [ reflexivity | ].
  split; [ reflexivity | ].
  split; [ apply strictest_level_allowed, Hk | ].
  split.
  - intros Hnn.
    destruct critical_values as [ | cv rest ].
    + exfalso. apply Hnn. reflexivity.
    + exists cv, rest. split; [ reflexivity | ].
      simpl in rejected_at. destruct (fgt statistic cv) eqn:E.
      * split; reflexivity.
      * exfalso. apply Hnn. reflexivity.
  - change (dict_get "significant" _)
      with (Some (VBool (StatisticalTests.is_not_none rejected_at))).
    destruct rejected_at; simpl; split; intros H;
      solve [ discriminate | congruence | reflexivity ].
Qed.

(** A statistic of 0.8 exceeds the first three critical values: rejected at 5. *)
Lemma anderson_rejected_at_witness :
  dict_get "rejected_at"
    (@StatisticalTests.anderson_darling_test Stub.numeric
       [0 # 1; 8 # 10]%Q "norm") = Some (VInt 5) /\
  dict_get "significant"
    (@StatisticalTests.anderson_darling_test Stub.numeric
       [0 # 1; 8 # 10]%Q "norm") = Some (VBool true).
Proof.
  destruct (anderson_rejected_at Stub.numeric [0 # 1; 8 # 10]%Q "norm"
              (Fin (8 # 10))
              [Fin (576 # 1000); Fin (656 # 1000); Fin (787 # 1000);
               Fin (918 # 1000); Fin (1092 # 1000)])
    as (_ & Hrej & _ & _ & Hsig).
  - simpl. lia.
  - vm_compute. reflexivity.
  - vm_compute. lia.
  - split.
    + exact Hrej.
    + apply Hsig. vm_compute. discriminate.
Defined.

(* ===================================================================== *)
(** ** The uniformity verdict *)
(* ===================================================================== *)

(** C5.  The composite reports [is_uniform = True] exactly when the
    histogram of the sample over [min(10, floor(sqrt(n)))] bins is
    computed and both sub-tests report a p-value above 0.05: the KS test
    of the sample against [uniform], and the chi-squared test of the
    histogram against the equal expected frequencies [n / bins]. *)
Theorem uniformity_is_uniform_iff (L : Numeric) (data : list Q) :
  dict_get "is_uniform" (StatisticalTests.uniformity_test data) =
    Some (VBool true) <->
  exists hist : list Z,
    np_histogram data (Z.min 10 (Z.sqrt (Z.of_nat (List.length data)))) =
      Return hist /\
    p_above (StatisticalTests.ks_test data "uniform" None) = true /\
    p_above (StatisticalTests.chi_squared_test
               (map inject_Z hist)
               (repeat (inject_Z (Z.of_nat (List.length data)) /
                        inject_Z (Z.min 10 (Z.sqrt (Z.of_nat (List.length data)))))%Q
                       (Z.to_nat (Z.min 10 (Z.sqrt (Z.of_nat (List.length data)))))))
      = true.
Proof.
  change (Z.min 10 (Z.sqrt (Z.of_nat (List.length data))))
    with (StatisticalTests.bin_count (List.length data)).
  change (repeat _ _) with (equal_frequencies (List.length data)).
  split.
  - intros H.
    destruct data as [ | x rest ].
    { destruct (@uniformity_empty L) as [msg E]. rewrite E in H. discriminate H. }
    destruct (np_histogram (x :: rest)
                (StatisticalTests.bin_count (List.length (x :: rest))))
      as [ hist | e ] eqn:E.
    + rewrite (uniformity_composite (x :: rest) hist) in H
        by (discriminate || exact E).
      cbv zeta in H. simpl dict_get in H.
      exists hist. split; [ reflexivity | ].
      apply andb_true_iff. injection H as H. exact H.
    + rewrite (uniformity_histogram_error _ e E) in H. discriminate H.
  - intros (hist & Hhist & Hks & Hchi).
    assert (Hne : data <> []).
    { intros ->. rewrite ks_too_few in Hks by (simpl; lia). discriminate Hks. }
    rewrite (uniformity_composite data hist Hne Hhist). cbv zeta.
    rewrite Hks, Hchi. reflexivity.
Qed.

(* ===================================================================== *)
(** ** Shapiro-Wilk *)
(* ===================================================================== *)

(** C7.  The Shapiro-Wilk runner returns a validation error for every
    sample of fewer than 3 values and for every sample of more than 5000
    values; on a sample of exactly 3 values, for which the library returns
    a statistic and a p-value, it returns the success record holding
    them. *)
Theorem shapiro_wilk_bounds (L : Numeric) (data : list Q) :
  ((List.length data < 3)%nat ->
   StatisticalTests.shapiro_wilk_test data =
   StatisticalTests.error_record "Data must have at least 3 values") /\
  ((5000 < List.length data)%nat ->
   StatisticalTests.shapiro_wilk_test data =
   StatisticalTests.error_record "Shapiro-Wilk test limited to 5000 samples") /\
  (List.length data = 3%nat ->
   forall W p : pyfloat,
     stats_shapiro data = Return (W, p) ->
     StatisticalTests.shapiro_wilk_test data =
     [("test", VStr "shapiro_wilk");
      ("statistic", VFloat W);
      ("p_value", VFloat p);
      ("significant", VBool (flt p (Fin (1 # 20))));
      ("sample_size", VInt 3);
      ("success", VBool true)]).
Proof.
  split; [ apply shapiro_too_few | split; [ apply shapiro_too_many | ] ].
  intros Hlen W p Hlib.
  rewrite (shapiro_in_range data W p) by (lia || exact Hlib).
  rewrite Hlen. reflexivity.
Qed.

(** Samples of 2, 5001 and 3 values. *)
Lemma shapiro_wilk_bounds_witness :
  failed (@StatisticalTests.shapiro_wilk_test Stub.numeric [1 # 1; 2 # 1]%Q) /\
  failed (@StatisticalTests.shapiro_wilk_test Stub.numeric (repeat 0%Q (S 5000))) /\
  succeeded (@StatisticalTests.shapiro_wilk_test Stub.numeric
               [1 # 1; 2 # 1; 4 # 1]%Q).
Proof.
  split; [ | split ].
  - rewrite (proj1 (shapiro_wilk_bounds Stub.numeric [1 # 1; 2 # 1]%Q))
      by (simpl; lia).
    reflexivity.
  - rewrite (proj1 (proj2 (shapiro_wilk_bounds Stub.numeric (repeat 0%Q (S 5000)))))
      by (rewrite repeat_length; lia).
    reflexivity.
  - rewrite (proj2 (proj2 (shapiro_wilk_bounds Stub.numeric
                             [1 # 1; 2 # 1; 4 # 1]%Q))
               eq_refl (Fin (19 # 20)) (Fin (1 # 2)) eq_refl).
    reflexivity.
Defined.

(* ===================================================================== *)
(** ** Parameter estimation in the KS runners *)
(* ===================================================================== *)



(* ===================================================================== *)
(** ** Identical tables *)
(* ===================================================================== *)

Lemma Forall2_Qeq_length (a b : list Q) :
  Forall2 Qeq a b -> List.length a = List.length b.
Proof. induction 1; simpl; congruence. Qed.

Lemma Qsum_identical (a b : list Q) :
  Forall2 Qeq a b -> (Qsum a == Qsum b)%Q.
Proof.
  induction 1 as [ | x y a b Hxy _ IH ]; simpl.
  - reflexivity.
  - rewrite Hxy, IH. reflexivity.
Qed.

(** Every term of the statistic vanishes when the tables agree. *)
Lemma chi2_statistic_identical (observed expected : list Q) :
  Forall2 Qeq observed expected ->
  (chi2_statistic observed expected == 0)%Q.
Proof.
  unfold chi2_statistic.
  induction 1 as [ | o e observed expected Hoe _ IH ]; simpl.
  - reflexivity.
  - rewrite IH, Hoe. unfold Qdiv. ring.
Qed.

Lemma positive_not_zero (l : list Q) :
  Forall (fun e => (0 < e)%Q) l -> Forall (fun e => ~ (e == 0)%Q) l.
Proof.
  apply Forall_impl. intros e He E. rewrite E in He.
  exact (Qlt_irrefl 0 He).
Qed.

Lemma positive_passes_guard (l : list Q) :
  Forall (fun e => (0 < e)%Q) l -> existsb (fun e => Qle_bool e 0) l = false.
Proof.
  intros H. destruct (existsb _ l) eqn:E; [ exfalso | reflexivity ].
  apply existsb_Qle_0, Exists_exists in E. destruct E as [e [Hin He]].
  rewrite Forall_forall in H. exact (Qlt_not_le _ _ (H e Hin) He).
Qed.

Lemma not_zero_passes_guard (l : list Q) :
  Forall (fun e => ~ (e == 0)%Q) l -> existsb (fun e => Qeq_bool e 0) l = false.
Proof.
  intros H. destruct (existsb _ l) eqn:E; [ exfalso | reflexivity ].
  apply existsb_Qeq_0, Exists_exists in E. destruct E as [e [Hin He]].
  rewrite Forall_forall in H. exact (H e Hin He).
Qed.

(** The executable instance meets the contract. *)
Lemma stub_chisquare_contract : chisquare_contract Stub.numeric.
Proof.
  intros observed expected Hlen Hnz _.
  simpl stats_chisquare. unfold Stub.chisquare.
  rewrite (length_agrees _ _ _ _ Hlen), (not_zero_passes_guard _ Hnz).
  eexists. eexists. split; [ reflexivity | ].
  split; [ apply Qred_correct | ].
  split.
  - intros Hk.
    assert (E : (Z.of_nat (List.length observed) - 1 <=? 0)%Z = true)
      by (apply Z.leb_le; lia).
    rewrite E. reflexivity.
  - intros Hk Hs.
    assert (E : (Z.of_nat (List.length observed) - 1 <=? 0)%Z = false)
      by (apply Z.leb_gt; lia).
    rewrite E. apply Qle_bool_iff in Hs. rewrite Hs. reflexivity.
Qed.

(** C9, as stated, fails.  On the one-entry tables observed [5] and
    expected [5] the statistic is 0 under 0 degrees of freedom, and the
    p-value is NaN, in both runners. *)
Lemma chi_squared_one_entry_p_value_is_nan :
  chisquare_contract Stub.numeric /\
  @StatisticalTests.chi_squared_test Stub.numeric [5 # 1]%Q [5 # 1]%Q =
  [("test", VStr "chi_squared");
   ("statistic", VFloat (Fin 0));
   ("p_value", VFloat NaN);
   ("significant", VBool false);
   ("degrees_of_freedom", VInt 0);
   ("success", VBool true)] /\
  @ChiSquaredTest.chi_squared_test Stub.numeric
     [5 # 1]%Q [5 # 1]%Q (Fin (1 # 20)) =
  Return [("statistic", VFloat (Fin 0));
          ("pvalue", VFloat NaN);
          ("significant", VBool false);
          ("alpha", VFloat (Fin (1 # 20)))].
Proof.
  split; [ exact stub_chisquare_contract | ].
  split; vm_compute; reflexivity.
Qed.

(** C9, amended.  For tables of two entries or more with observed equal
    to expected entry by entry and every expected entry positive, both
    chi-squared runners return a statistic equal to 0 and a p-value of 1,
    given a library that computes the statistic and the p-value as
    [chisquare_contract] says. *)
Theorem chi_squared_identical_tables (L : Numeric)
    (observed expected : list Q) (alpha : pyfloat) :
  chisquare_contract L ->
  Forall2 Qeq observed expected ->
  Forall (fun e => (0 < e)%Q) expected ->
  (2 <= List.length expected)%nat ->
  (exists s : Q,
     (s == 0)%Q /\
     StatisticalTests.chi_squared_test observed expected =
     [("test", VStr "chi_squared");
      ("statistic", VFloat (Fin s));
      ("p_value", VFloat (Fin 1));
      ("significant", VBool false);
      ("degrees_of_freedom", VInt (Z.of_nat (List.length observed) - 1));
      ("success", VBool true)]) /\
  (exists s : Q,
     (s == 0)%Q /\
     ChiSquaredTest.chi_squared_test observed expected alpha =
     Return [("statistic", VFloat (Fin s));
             ("pvalue", VFloat (Fin 1));
             ("significant", VBool (flt (Fin 1) alpha));
             ("alpha", VFloat alpha)]).
Proof.
  intros Hlib Hsame Hpos Hk.
  assert (Hlen := Forall2_Qeq_length _ _ Hsame).
  assert (Hnz := positive_not_zero _ Hpos).
  destruct (Hlib observed expected Hlen Hnz (Qsum_identical _ _ Hsame))
    as (s & p & Hcall & Hs & _ & Hp).
  rewrite (chi2_statistic_identical _ _ Hsame) in Hs.
  assert (Hp1 : p = Fin 1).
  { apply Hp; [ lia | ]. rewrite Hs. apply Qle_refl. }
  subst p.
  split; exists s; (split; [ exact Hs | ]).
  - unfold StatisticalTests.chi_squared_test; cbv zeta.
    rewrite (length_agrees _ _ _ _ Hlen), (positive_passes_guard _ Hpos), Hcall.
    reflexivity.
  - rewrite (cli_chi_squared_passes observed expected alpha Hlen Hnz), Hcall.
    reflexivity.
Qed.

(** The tables [10, 20, 30] and [20/2, 20, 30]. *)
Lemma chi_squared_identical_tables_witness :
  (exists s : Q,
     (s == 0)%Q /\
     @StatisticalTests.chi_squared_test Stub.numeric
        [10 # 1; 20 # 1; 30 # 1]%Q [20 # 2; 20 # 1; 30 # 1]%Q =
     [("test", VStr "chi_squared");
      ("statistic", VFloat (Fin s));
      ("p_value", VFloat (Fin 1));
      ("significant", VBool false);
      ("degrees_of_freedom", VInt 2);
      ("success", VBool true)]) /\
  (exists s : Q,
     (s == 0)%Q /\
     @ChiSquaredTest.chi_squared_test Stub.numeric
        [10 # 1; 20 # 1; 30 # 1]%Q [20 # 2; 20 # 1; 30 # 1]%Q (Fin (1 # 20)) =
     Return [("statistic", VFloat (Fin s));
             ("pvalue", VFloat (Fin 1));
             ("significant", VBool false);
             ("alpha", VFloat (Fin (1 # 20)))]).
Proof.
  apply (chi_squared_identical_tables Stub.numeric
           [10 # 1; 20 # 1; 30 # 1]%Q [20 # 2; 20 # 1; 30 # 1]%Q (Fin (1 # 20))).
  - exact stub_chisquare_contract.
  - repeat constructor; reflexivity.
  - repeat constructor; reflexivity.
  - simpl. lia.
Defined.

(* ===================================================================== *)
(** ** The generators and the process-wide random state *)
(* ===================================================================== *)

Section Seeding.
Context {R : NumpyRandom}.

(** With a seed, what follows the reseeding runs from a state that the
    seed alone decides. *)
Lemma seeded_run_ignores_state (A : Type) (seed : Z) (k : gen A)
    (g1 g2 : rng) :
  fst (gen_bind (seed_if_given (Some seed)) (fun _ => k) g1) =
  fst (gen_bind (seed_if_given (Some seed)) (fun _ => k) g2) /\
  (forall g', np_random_seed seed = Return g' ->
     gen_bind (seed_if_given (Some seed)) (fun _ => k) g1 = k g').
Proof.
  unfold gen_bind, seed_if_given.
  destruct (np_random_seed seed) as [ g' | e ]; split.
  - reflexivity.
  - intros g'' E. injection E as <-. destruct (k g') as [ [ a | e ] g'' ];
      reflexivity.
  - reflexivity.
  - discriminate.
Qed.

End Seeding.

(** C6.  With an explicit seed, the outcome of a generator (the sequence,
    or the exception) is the same from any two states of the process-wide
    generator: two calls with the same count, parameters and seed produce
    identical sequences. *)
Theorem seeded_generators_deterministic (R : NumpyRandom) (n : Z)
    (mean std a : pyfloat) (seed : Z) (g1 g2 : rng) :
  fst (generate_normal n mean std (Some seed) g1) =
  fst (generate_normal n mean std (Some seed) g2) /\
  fst (generate_zipf n a (Some seed) g1) =
  fst (generate_zipf n a (Some seed) g2).
Proof.
  split; unfold generate_normal, generate_zipf; apply seeded_run_ignores_state.
Qed.

(** Two calls in a row, the second starting from the state the first has
    left, as a process would make them. *)
Corollary seeded_normal_repeatable (R : NumpyRandom) (n : Z)
    (mean std : pyfloat) (seed : Z) (g : rng) :
  let first := generate_normal n mean std (Some seed) g in
  let second := generate_normal n mean std (Some seed) (snd first) in
  fst first = fst second.
Proof.
  cbv zeta. unfold generate_normal. apply seeded_run_ignores_state.
Qed.



(* ===================================================================== *)
(** ** Further properties of the runners' records *)
(* ===================================================================== *)

Section Records.
Context {L : Numeric}.

Import StatisticalTests.

Lemma error_record_is_error (msg : string) : result_or_error (error_record msg).
Proof. left. split; [ reflexivity | exists msg; reflexivity ]. Qed.

Ltac solve_record :=
  solve [ apply error_record_is_error
        | right; split; reflexivity ].

(** X1.  Whatever the input and whatever the library does, each of the
    five runners of the multi-test module returns a record that is a
    result or an error, never both: [success] is always present, and an
    [error] message is present exactly when [success] is false. *)
Theorem runner_records_are_result_or_error (observed expected data : list Q)
    (distribution : string) (params : option params_t) :
  result_or_error (chi_squared_test observed expected) /\
  result_or_error (ks_test data distribution params) /\
  result_or_error (anderson_darling_test data distribution) /\
  result_or_error (shapiro_wilk_test data) /\
  result_or_error (uniformity_test data).
Proof.
  repeat match goal with |- _ /\ _ => split end.
  - unfold chi_squared_test, on_exception; cbv zeta. split_body; solve_record.
  - unfold ks_test, ks_record, on_exception; cbv zeta. split_body; solve_record.
  - unfold anderson_darling_test, on_exception; cbv zeta.
    split_body; solve_record.
  - unfold shapiro_wilk_test, on_exception; cbv zeta. split_body; solve_record.
  - unfold uniformity_test, on_exception; cbv zeta. split_body; solve_record.
Qed.

End Records.

Section Verdicts.
Context {L : Numeric}.

Import StatisticalTests.

(** X2.  In every success record of the chi-squared, KS and Shapiro-Wilk
    runners, [significant] is the comparison of the record's own p-value
    with 0.05, and in the single-test chi-squared utility with the
    caller's [alpha]; a NaN p-value is therefore never significant. *)
Theorem significant_follows_p_value (observed expected data : list Q)
    (distribution : string) (params : option params_t) (alpha : pyfloat) :
  (succeeded (chi_squared_test observed expected) ->
   significance_follows "p_value" (Fin (1 # 20))
     (chi_squared_test observed expected)) /\
  (succeeded (ks_test data distribution params) ->
   significance_follows "p_value" (Fin (1 # 20))
     (ks_test data distribution params)) /\
  (succeeded (shapiro_wilk_test data) ->
   significance_follows "p_value" (Fin (1 # 20)) (shapiro_wilk_test data)) /\
  (forall d,
     ChiSquaredTest.chi_squared_test observed expected alpha = Return d ->
     significance_follows "pvalue" alpha d /\
     dict_get "alpha" d = Some (VFloat alpha)) /\
  (forall key threshold d,
     significance_follows key threshold d ->
     dict_get key d = Some (VFloat NaN) ->
     dict_get "significant" d = Some (VBool false)).
Proof.
  repeat match goal with |- _ /\ _ => split end.
  - unfold chi_squared_test, on_exception; cbv zeta.
    split_body; intros S; try discriminate S; eexists; split; reflexivity.
  - unfold ks_test, ks_record, on_exception; cbv zeta.
    split_body; intros S; try discriminate S; eexists; split; reflexivity.
  - unfold shapiro_wilk_test, on_exception; cbv zeta.
    split_body; intros S; try discriminate S; eexists; split; reflexivity.
  - intros d. unfold ChiSquaredTest.chi_squared_test.
    split_body; intros E; try discriminate E; injection E as <-.
    split; [ eexists; split; reflexivity | reflexivity ].
  - intros key threshold d (p & Hp & Hs) Hnan.
    rewrite Hp in Hnan. injection Hnan as ->. exact Hs.
Qed.

End Verdicts.

(** A table on which the stand-in p-value falls below 0.05. *)
Lemma significant_follows_p_value_witness :
  significance_follows "p_value" (Fin (1 # 20))
    (@StatisticalTests.chi_squared_test Stub.numeric [100 # 1; 0 # 1]%Q [50 # 1; 50 # 1]%Q) /\
  dict_get "significant"
    (@StatisticalTests.chi_squared_test Stub.numeric [100 # 1; 0 # 1]%Q [50 # 1; 50 # 1]%Q) =
  Some (VBool true).
Proof.
  split.
  - apply (proj1 (@significant_follows_p_value Stub.numeric
                    [100 # 1; 0 # 1]%Q [50 # 1; 50 # 1]%Q [] "norm" None NaN)).
    reflexivity.
  - reflexivity.
Defined.

Section Acceptance.
Context {L : Numeric}.

Import StatisticalTests.

(** X3.  The multi-test chi-squared runner returns a success record
    exactly when the tables have equal length, every expected entry is
    positive and the library returns; the single-test utility returns
    exactly when the tables have equal length, no expected entry is zero
    and the library returns.  So every table the first accepts is accepted
    by the second as well. *)
Theorem chi_squared_accepts_iff (observed expected : list Q) (alpha : pyfloat) :
  (succeeded (chi_squared_test observed expected) <->
   List.length observed = List.length expected /\
   Forall (fun e => (0 < e)%Q) expected /\
   exists s p, stats_chisquare observed expected = Return (s, p)) /\
  ((exists d, ChiSquaredTest.chi_squared_test observed expected alpha = Return d)
   <->
   List.length observed = List.length expected /\
   Forall (fun e => ~ (e == 0)%Q) expected /\
   exists s p, stats_chisquare observed expected = Return (s, p)) /\
  (succeeded (chi_squared_test observed expected) ->
   exists d, ChiSquaredTest.chi_squared_test observed expected alpha = Return d).
Proof.
  assert (Hmulti :
    succeeded (chi_squared_test observed expected) <->
    List.length observed = List.length expected /\
    Forall (fun e => (0 < e)%Q) expected /\
    exists s p, stats_chisquare observed expected = Return (s, p)).
  { split.
    - intros S.
      destruct (Nat.eq_dec (List.length observed) (List.length expected))
        as [ Hlen | Hlen ];
        [ | rewrite chi_squared_length_mismatch in S by exact Hlen;
            discriminate S ].
      split; [ exact Hlen | ].
      destruct (existsb (fun e => Qle_bool e 0) expected) eqn:E.
      { apply existsb_Qle_0 in E.
        rewrite chi_squared_not_positive in S by assumption. discriminate S. }
      split.
      + apply Forall_forall. intros e Hin. apply Qnot_le_lt. intros Hle.
        assert (X : existsb (fun e => Qle_bool e 0) expected = true).
        { apply existsb_Qle_0, Exists_exists. exists e. split; assumption. }
        congruence.
      + unfold chi_squared_test in S; cbv zeta in S.
        rewrite (length_agrees _ _ _ _ Hlen), E in S.
        destruct (stats_chisquare observed expected) as [ [s p] | e ].
        * exists s, p. reflexivity.
        * discriminate S.
    - intros (Hlen & Hpos & s & p & Hlib).
      unfold chi_squared_test; cbv zeta.
      rewrite (length_agrees _ _ _ _ Hlen), (positive_passes_guard _ Hpos), Hlib.
      reflexivity. }
  assert (Hcli :
    (exists d, ChiSquaredTest.chi_squared_test observed expected alpha = Return d)
    <->
    List.length observed = List.length expected /\
    Forall (fun e => ~ (e == 0)%Q) expected /\
    exists s p, stats_chisquare observed expected = Return (s, p)).
  { split.
    - intros [d Hd].
      destruct (Nat.eq_dec (List.length observed) (List.length expected))
        as [ Hlen | Hlen ];
        [ | rewrite cli_chi_squared_length_mismatch in Hd by exact Hlen;
            discriminate Hd ].
      split; [ exact Hlen | ].
      destruct (existsb (fun e => Qeq_bool e 0) expected) eqn:E.
      { apply existsb_Qeq_0 in E.
        rewrite cli_chi_squared_zero in Hd by assumption. discriminate Hd. }
      assert (Hnz : Forall (fun e => ~ (e == 0)%Q) expected).
      { apply Forall_forall. intros e Hin He.
        assert (X : existsb (fun e => Qeq_bool e 0) expected = true).
        { apply existsb_Qeq_0, Exists_exists. exists e. split; assumption. }
        congruence. }
      split; [ exact Hnz | ].
      rewrite (cli_chi_squared_passes _ _ alpha Hlen Hnz) in Hd.
      destruct (stats_chisquare observed expected) as [ [s p] | e ].
      + exists s, p. reflexivity.
      + discriminate Hd.
    - intros (Hlen & Hnz & s & p & Hlib).
      rewrite (cli_chi_squared_passes _ _ alpha Hlen Hnz), Hlib.
      eexists. reflexivity. }
  split; [ exact Hmulti | split; [ exact Hcli | ] ].
  intros S. apply Hcli. apply Hmulti in S.
  destruct S as (Hlen & Hpos & Hlib).
  split; [ exact Hlen | split; [ apply positive_not_zero, Hpos | exact Hlib ] ].
Qed.

End Acceptance.

Lemma chi_squared_accepts_iff_witness :
  exists d,
    @ChiSquaredTest.chi_squared_test Stub.numeric
      [10 # 1; 20 # 1; 30 # 1]%Q [20 # 1; 20 # 1; 20 # 1]%Q (Fin (1 # 20)) =
    Return d.
Proof.
  apply (proj2 (proj2 (@chi_squared_accepts_iff Stub.numeric
                         [10 # 1; 20 # 1; 30 # 1]%Q [20 # 1; 20 # 1; 20 # 1]%Q
                         (Fin (1 # 20))))).
  reflexivity.
Defined.

(* ===================================================================== *)
(** ** Supplied parameters and distribution names in the KS runners *)
(* ===================================================================== *)

(** X4.  An empty parameter object counts as omitted on both KS surfaces.
    A non-empty object that lacks [std] is completed differently: the
    multi-test runner stops estimating altogether and uses the constants
    0 and 1, the single-test utility still estimates the missing
    deviation from the sample. *)
Theorem ks_partial_parameters (L : Numeric) (data : list Q)
    (distribution : string) :
  StatisticalTests.ks_test data distribution (Some []) =
    StatisticalTests.ks_test data distribution None /\
  KsTest.ks_test data distribution (Some []) =
    KsTest.ks_test data distribution None /\
  (forall p : params_t,
     (2 <= List.length data)%nat -> p <> [] -> dict_get "std" p = None ->
     StatisticalTests.ks_test data "norm" (Some p) =
     try_except
       (StatisticalTests.ks_record "norm" (List.length data)
          (stats_kstest data "norm"
             [dict_get_default "mean" (Fin 0) p; Fin 1]))
       StatisticalTests.on_exception) /\
  (forall (p : params_t) (mean std : pyfloat),
     dict_get "std" p = None ->
     np_mean data = Return mean -> np_std data = Return std ->
     KsTest.ks_test data "normal" (Some p) =
     ('(statistic, pvalue) <-
        stats_kstest data "norm" [dict_get_default "mean" mean p; std] ;;
      Return [("statistic", VFloat statistic); ("pvalue", VFloat pvalue)])).
Proof.
  repeat match goal with |- _ /\ _ => split end.
  - reflexivity.
  - reflexivity.
  - intros p Hlen Hne Hstd. unfold StatisticalTests.ks_test; cbv zeta.
    apply Nat.ltb_ge in Hlen. rewrite Hlen.
    destruct p as [ | kv p ]; [ congruence | ].
    simpl. unfold dict_get_default at 2. rewrite Hstd. reflexivity.
  - intros p mean std Hstd Hm Hs. unfold KsTest.ks_test. simpl.
    rewrite Hm. simpl. rewrite Hs. simpl.
    unfold dict_get_default at 2. rewrite Hstd. reflexivity.
Qed.

(** The sample [1, 2, 4] with only [mean] = 5 supplied. *)
Lemma ks_partial_parameters_witness :
  @StatisticalTests.ks_test Stub.numeric [1 # 1; 2 # 1; 4 # 1]%Q "norm"
     (Some [("mean", Fin (5 # 1))]) =
  try_except
    (StatisticalTests.ks_record "norm" 3
       (@stats_kstest Stub.numeric [1 # 1; 2 # 1; 4 # 1]%Q "norm"
          [Fin (5 # 1); Fin 1]))
    StatisticalTests.on_exception.
Proof.
  apply (proj1 (proj2 (proj2 (ks_partial_parameters Stub.numeric
                                [1 # 1; 2 # 1; 4 # 1]%Q "norm")))
           [("mean", Fin (5 # 1))]).
  - simpl. lia.
  - discriminate.
  - reflexivity.
Defined.

(** X5.  The two KS surfaces share no distribution name: whatever the
    name, the multi-test runner or the single-test utility (or both)
    answers that the distribution is unsupported. *)
Theorem ks_vocabularies_are_disjoint (L : Numeric) (data : list Q)
    (distribution : string) (params : option params_t) :
  (2 <= List.length data)%nat ->
  StatisticalTests.ks_test data distribution params =
    StatisticalTests.error_record ("Unsupported distribution: " ++ distribution)
  \/
  KsTest.ks_test data distribution params =
    Raise (ValueError ("Unsupported distribution: " ++ distribution)).
Proof.
  intros Hlen.
  destruct (String.eqb_spec distribution "normal") as [ -> | Hn ].
  { left. apply ks_unsupported; [ exact Hlen | | | ]; discriminate. }
  destruct (String.eqb_spec distribution "zipf") as [ -> | Hz ].
  { left. apply ks_unsupported; [ exact Hlen | | | ]; discriminate. }
  right. unfold KsTest.ks_test.
  apply String.eqb_neq in Hn, Hz. rewrite Hn, Hz. reflexivity.
Qed.

Lemma ks_vocabularies_are_disjoint_witness :
  @StatisticalTests.ks_test Stub.numeric [1 # 1; 2 # 1]%Q "normal" None =
    StatisticalTests.error_record "Unsupported distribution: normal"
  \/
  @KsTest.ks_test Stub.numeric [1 # 1; 2 # 1]%Q "normal" None =
    Raise (ValueError "Unsupported distribution: normal").
Proof.
  apply (ks_vocabularies_are_disjoint Stub.numeric [1 # 1; 2 # 1]%Q "normal" None).
  simpl. lia.
Defined.

(* ===================================================================== *)
(** ** The bins and the expected table of the uniformity composite *)
(* ===================================================================== *)

Section Bins.
Import StatisticalTests.

Lemma bin_count_bounds (n : nat) :
  (1 <= n)%nat ->
  1 <= bin_count n <= 10 /\ bin_count n * bin_count n <= Z.of_nat n.
Proof.
  intros H. unfold bin_count.
  assert (Hs := Z.sqrt_spec (Z.of_nat n) ltac:(lia)). cbv zeta in Hs.
  assert (0 < Z.sqrt (Z.of_nat n)) by (apply Z.sqrt_pos; lia).
  split; [ lia | ].
  destruct (Z.min_spec 10 (Z.sqrt (Z.of_nat n))) as [ [Hlt ->] | [Hge ->] ]; nia.
Qed.

Lemma bin_count_is_ten (n : nat) : bin_count n = 10 <-> (100 <= n)%nat.
Proof.
  unfold bin_count. split.
  - intros H.
    assert (Hs := Z.sqrt_spec (Z.of_nat n) ltac:(lia)). cbv zeta in Hs.
    assert (10 <= Z.sqrt (Z.of_nat n)) by lia. nia.
  - intros H.
    assert (Z.sqrt 100 <= Z.sqrt (Z.of_nat n)) by (apply Z.sqrt_le_mono; lia).
    change (Z.sqrt 100) with 10 in *. lia.
Qed.

Lemma equal_frequencies_length (n : nat) :
  List.length (equal_frequencies n) = Z.to_nat (bin_count n).
Proof. unfold equal_frequencies. apply repeat_length. Qed.

Lemma equal_frequencies_positive (n : nat) :
  (1 <= n)%nat -> Forall (fun e => (0 < e)%Q) (equal_frequencies n).
Proof.
  intros H. destruct (bin_count_bounds n H) as [Hb _].
  unfold equal_frequencies. apply Forall_forall. intros e Hin.
  apply repeat_spec in Hin. subst e.
  apply Qlt_shift_div_l.
  - change 0%Q with (inject_Z 0). rewrite <- Zlt_Qlt. lia.
  - rewrite Qmult_0_l. change 0%Q with (inject_Z 0). rewrite <- Zlt_Qlt. lia.
Qed.

Lemma Qsum_repeat (x : Q) (k : nat) :
  (Qsum (repeat x k) == inject_Z (Z.of_nat k) * x)%Q.
Proof.
  induction k as [ | k IH ].
  - simpl. ring.
  - cbn [repeat Qsum fold_right]. fold (Qsum (repeat x k)). rewrite IH.
    rewrite Nat2Z.inj_succ. unfold Z.succ. rewrite inject_Z_plus. ring.
Qed.

Lemma equal_frequencies_sum (n : nat) :
  (1 <= n)%nat -> (Qsum (equal_frequencies n) == inject_Z (Z.of_nat n))%Q.
Proof.
  intros H. destruct (bin_count_bounds n H) as [Hb _].
  unfold equal_frequencies. rewrite Qsum_repeat.
  rewrite Z2Nat.id by lia. field.
  intros E. unfold Qeq in E. simpl in E. lia.
Qed.

End Bins.

(** X6.  For a sample of [n >= 1] values the composite uses between 1 and
    10 bins, never more than the square root of [n], and exactly 10 from
    100 values on; its expected table has one entry per bin, every entry
    positive, and the entries add up to [n]. *)
Theorem uniformity_expected_table (n : nat) :
  (1 <= n)%nat ->
  1 <= StatisticalTests.bin_count n <= 10 /\
  StatisticalTests.bin_count n * StatisticalTests.bin_count n <= Z.of_nat n /\
  (StatisticalTests.bin_count n = 10 <-> (100 <= n)%nat) /\
  List.length (equal_frequencies n) = Z.to_nat (StatisticalTests.bin_count n) /\
  Forall (fun e => (0 < e)%Q) (equal_frequencies n) /\
  (Qsum (equal_frequencies n) == inject_Z (Z.of_nat n))%Q.
Proof.
  intros H. destruct (bin_count_bounds n H) as [Hb Hsq].
  split; [ exact Hb | ].
  split; [ exact Hsq | ].
  split; [ apply bin_count_is_ten | ].
  split; [ apply equal_frequencies_length | ].
  split; [ apply equal_frequencies_positive, H | apply equal_frequencies_sum, H ].
Qed.

(** Seven values: two bins of 3.5. *)
Lemma uniformity_expected_table_witness :
  StatisticalTests.bin_count 7 = 2 /\
  (Qsum (equal_frequencies 7) == 7 # 1)%Q.
Proof.
  split.
  - reflexivity.
  - apply (uniformity_expected_table 7). lia.
Defined.

(** X7.  Inside the composite the chi-squared sub-test never fails its own
    validation: for a non-empty sample and a histogram with one count per
    bin, the sub-result is the library's outcome on the histogram and the
    expected table, under [bins - 1] degrees of freedom, so only an
    exception of the library can make it an error record. *)
Theorem uniformity_chi_squared_passes_validation (L : Numeric)
    (data : list Q) (hist : list Z) :
  data <> [] ->
  List.length hist = Z.to_nat (StatisticalTests.bin_count (List.length data)) ->
  StatisticalTests.chi_squared_test
    (map inject_Z hist) (equal_frequencies (List.length data)) =
  try_except
    ('(chi2_stat, p_value) <-
       stats_chisquare (map inject_Z hist)
                       (equal_frequencies (List.length data)) ;;
     Return [("test", VStr "chi_squared");
             ("statistic", VFloat chi2_stat);
             ("p_value", VFloat p_value);
             ("significant", VBool (flt p_value (Fin (1 # 20))));
             ("degrees_of_freedom",
              VInt (StatisticalTests.bin_count (List.length data) - 1));
             ("success", VBool true)])
    StatisticalTests.on_exception.
Proof.
  intros Hne Hlen.
  assert (Hn : (1 <= List.length data)%nat)
    by (destruct data; [ congruence | simpl; lia ]).
  destruct (bin_count_bounds _ Hn) as [Hb _].
  unfold StatisticalTests.chi_squared_test; cbv zeta.
  rewrite length_agrees
    by (rewrite length_map, equal_frequencies_length; exact Hlen).
  rewrite (positive_passes_guard _ (equal_frequencies_positive _ Hn)).
  rewrite length_map, Hlen, Z2Nat.id by lia.
  reflexivity.
Qed.

Lemma uniformity_chi_squared_passes_validation_witness :
  succeeded
    (@StatisticalTests.chi_squared_test Stub.numeric
       (map inject_Z [3; 2])
       (equal_frequencies
          (List.length [1 # 1; 2 # 1; 3 # 2; 5 # 4; 7 # 4]%Q))).
Proof.
  rewrite (uniformity_chi_squared_passes_validation Stub.numeric
             [1 # 1; 2 # 1; 3 # 2; 5 # 4; 7 # 4]%Q [3; 2]).
  - reflexivity.
  - discriminate.
  - reflexivity.
Defined.

Lemma above_is_success (d : dict) :
  runner_result d -> p_above d = true -> succeeded d.
Proof.
  intros [ msg -> | p E S ] A.
  - discriminate A.
  - exact S.
Qed.

(** X8.  A verdict [is_uniform = True] is only ever reported for a sample
    of two values or more, in a success record whose two embedded
    sub-results are success records themselves. *)
Theorem uniform_verdict_needs_two_values (L : Numeric) (data : list Q) :
  dict_get "is_uniform" (StatisticalTests.uniformity_test data) =
    Some (VBool true) ->
  (2 <= List.length data)%nat /\
  succeeded (StatisticalTests.uniformity_test data) /\
  exists ks_result chi2_result,
    dict_get "ks_test" (StatisticalTests.uniformity_test data) =
      Some (VDict ks_result) /\
    succeeded ks_result /\
    dict_get "chi_squared_test" (StatisticalTests.uniformity_test data) =
      Some (VDict chi2_result) /\
    succeeded chi2_result.
Proof.
  intros H.
  destruct data as [ | x rest ].
  { destruct (@uniformity_empty L) as [msg E]. rewrite E in H. discriminate H. }
  destruct (np_histogram (x :: rest)
              (StatisticalTests.bin_count (List.length (x :: rest))))
    as [ hist | e ] eqn:E.
  2: { rewrite (uniformity_histogram_error _ e E) in H. discriminate H. }
  assert (Hc := uniformity_composite (x :: rest) hist ltac:(discriminate) E).
  cbv zeta in Hc. rewrite Hc in H |- *.
  simpl dict_get in H |- *. injection H as H. apply andb_true_iff in H.
  destruct H as [Hks Hchi].
  split.
  - destruct rest as [ | y rest ]; [ | simpl; lia ].
    rewrite ks_too_few in Hks by (simpl; lia). discriminate Hks.
  - split; [ reflexivity | ].
    eexists. eexists.
    split; [ reflexivity | ].
    split; [ apply above_is_success; [ apply ks_shape | exact Hks ] | ].
    split; [ reflexivity | ].
    apply above_is_success; [ apply chi_squared_shape | exact Hchi ].
Qed.

Lemma uniform_verdict_needs_two_values_witness :
  (2 <= List.length [1 # 1; 2 # 1; 3 # 2; 5 # 4; 7 # 4]%Q)%nat /\
  succeeded (@StatisticalTests.uniformity_test Stub.numeric
               [1 # 1; 2 # 1; 3 # 2; 5 # 4; 7 # 4]%Q).
Proof.
  destruct (uniform_verdict_needs_two_values Stub.numeric
              [1 # 1; 2 # 1; 3 # 2; 5 # 4; 7 # 4]%Q) as (Hlen & Hs & _).
  - vm_compute. reflexivity.
  - split; [ exact Hlen | exact Hs ].
Defined.

(* ===================================================================== *)
(** ** More on the Anderson-Darling scan *)
(* ===================================================================== *)

Lemma exceeded_prefix_exceeded (statistic : pyfloat)
    (critical_values : list pyfloat) (j : nat) :
  (j < exceeded_prefix statistic critical_values)%nat ->
  exists cv, nth_error critical_values j = Some cv /\ fgt statistic cv = true.
Proof.
  revert j. induction critical_values as [ | c rest IH ]; intros j Hj;
    simpl in Hj.
  - lia.
  - destruct (fgt statistic c) eqn:E; [ | lia ].
    destruct j as [ | j ].
    + exists c. split; [ reflexivity | exact E ].
    + apply IH. lia.
Qed.

Lemma exceeded_prefix_stops (statistic : pyfloat)
    (critical_values : list pyfloat) (cv : pyfloat) :
  nth_error critical_values (exceeded_prefix statistic critical_values) =
    Some cv ->
  fgt statistic cv = false.
Proof.
  induction critical_values as [ | c rest IH ]; simpl.
  - discriminate.
  - destruct (fgt statistic c) eqn:E.
    + exact IH.
    + simpl. intros H. injection H as <-. exact E.
Qed.

Lemma strictest_level_injective (j k : nat) :
  (j <= 5)%nat -> (k <= 5)%nat -> strictest_level j = strictest_level k -> j = k.
Proof.
  intros Hj Hk.
  do 6 (destruct j as [ | j ]; [
    do 6 (destruct k as [ | k ]; [ try reflexivity; discriminate | ]); lia | ]).
  lia.
Qed.

(** X9.  When the library returns more critical values than the ladder
    has levels and the statistic exceeds the first six of them, the
    Anderson-Darling runner answers with the error record of an index
    error instead of a result. *)
Theorem anderson_six_exceeded_levels_is_an_error (L : Numeric)
    (data : list Q) (distribution : string) (statistic : pyfloat)
    (critical_values : list pyfloat) :
  (2 <= List.length data)%nat ->
  stats_anderson data distribution = Return (statistic, critical_values) ->
  (5 < exceeded_prefix statistic critical_values)%nat ->
  StatisticalTests.anderson_darling_test data distribution =
  StatisticalTests.error_record "list index out of range".
Proof.
  intros Hlen Hlib Hk. unfold StatisticalTests.anderson_darling_test; cbv zeta.
  apply Nat.ltb_ge in Hlen. rewrite Hlen, Hlib. cbn [bind].
  rewrite scan_critical_values_overflow by (simpl; lia).
  reflexivity.
Qed.

(** Six critical values, all below a statistic of 2. *)
Lemma anderson_six_exceeded_levels_is_an_error_witness :
  @StatisticalTests.anderson_darling_test StubIO.six_levels
     [0 # 1; 1 # 1]%Q "logistic" =
  StatisticalTests.error_record "list index out of range".
Proof.
  apply (anderson_six_exceeded_levels_is_an_error StubIO.six_levels
           [0 # 1; 1 # 1]%Q "logistic" (Fin (2 # 1))
           [Fin (426 # 1000); Fin (563 # 1000); Fin (660 # 1000);
            Fin (769 # 1000); Fin (906 # 1000); Fin (1010 # 1000)]).
  - simpl. lia.
  - reflexivity.
  - vm_compute. lia.
Defined.

(** X10.  If the Anderson-Darling record carries the level reached after
    [k] steps of the ladder as [rejected_at] ([k = 0] for null), then the
    statistic exceeds each of the first [k] critical values and does not
    exceed the next one, if there is one. *)
Theorem anderson_rejected_at_is_last_exceeded (L : Numeric)
    (data : list Q) (distribution : string) (statistic : pyfloat)
    (critical_values : list pyfloat) (k : nat) :
  (2 <= List.length data)%nat ->
  stats_anderson data distribution = Return (statistic, critical_values) ->
  (k <= 5)%nat ->
  dict_get "rejected_at"
    (StatisticalTests.anderson_darling_test data distribution) =
    Some (strictest_level k) ->
  (forall j, (j < k)%nat ->
     exists cv, nth_error critical_values j = Some cv /\
                fgt statistic cv = true) /\
  (forall cv, nth_error critical_values k = Some cv ->
     fgt statistic cv = false).
Proof.
  intros Hlen Hlib Hk Hrej.
  destruct (Nat.le_gt_cases (exceeded_prefix statistic critical_values) 5)
    as [ Hle | Hgt ].
  - rewrite (anderson_accepted data distribution statistic critical_values
               Hlen Hlib Hle) in Hrej.
    cbv zeta in Hrej. simpl dict_get in Hrej. injection Hrej as Hrej.
    apply strictest_level_injective in Hrej; [ | assumption | assumption ].
    subst k. split.
    + intros j Hj. apply exceeded_prefix_exceeded, Hj.
    + intros cv. apply exceeded_prefix_stops.
  - exfalso. unfold StatisticalTests.anderson_darling_test in Hrej;
      cbv zeta in Hrej.
    apply Nat.ltb_ge in Hlen. rewrite Hlen, Hlib in Hrej. cbn [bind] in Hrej.
    rewrite scan_critical_values_overflow in Hrej by (simpl; lia).
    discriminate Hrej.
Qed.

(** A statistic of 0.8: rejected at 5, so the fourth critical value,
    0.918, is not exceeded. *)
Lemma anderson_rejected_at_is_last_exceeded_witness :
  fgt (Fin (8 # 10)) (Fin (787 # 1000)) = true /\
  fgt (Fin (8 # 10)) (Fin (918 # 1000)) = false.
Proof.
  destruct (anderson_rejected_at_is_last_exceeded Stub.numeric
              [0 # 1; 8 # 10]%Q "norm" (Fin (8 # 10))
              [Fin (576 # 1000); Fin (656 # 1000); Fin (787 # 1000);
               Fin (918 # 1000); Fin (1092 # 1000)] 3)
    as [Hbelow Hnext].
  - simpl. lia.
  - vm_compute. reflexivity.
  - lia.
  - vm_compute. reflexivity.
  - split.
    + destruct (Hbelow 2%nat) as (cv & Hcv & Hgt); [ lia | ].
      injection Hcv as <-. exact Hgt.
    + apply Hnext. reflexivity.
Defined.

(* ===================================================================== *)
(** ** Failures of the generators before any sampling *)
(* ===================================================================== *)

(** X11.  A generator call that fails before sampling leaves the
    process-wide generator untouched unless a seed was applied: without a
    seed the deviation error comes with the state unchanged, and a seed the
    library rejects ends both generators with the library's exception, the
    state unchanged and the deviation never examined.  A NaN deviation is
    not rejected: it reaches the sampler. *)
Theorem generator_failures_before_sampling (R : NumpyRandom) (n : Z)
    (mean std a : pyfloat) (seed : Z) (e : exn) (g : rng) :
  (fle std (Fin 0) = true ->
   generate_normal n mean std None g =
   (Raise (ValueError "Standard deviation must be positive"), g)) /\
  (np_random_seed seed = Raise e ->
   generate_normal n mean std (Some seed) g = (Raise e, g) /\
   generate_zipf n a (Some seed) g = (Raise e, g)) /\
  generate_normal n mean NaN None g = np_random_normal mean NaN n g.
Proof.
  split; [ | split ].
  - intros Hstd. unfold generate_normal, gen_bind, seed_if_given, gen_raise.
    rewrite Hstd. reflexivity.
  - intros Hseed. unfold generate_normal, generate_zipf, gen_bind, seed_if_given.
    rewrite Hseed. split; reflexivity.
  - unfold generate_normal, gen_bind, seed_if_given. simpl.
    destruct (np_random_normal mean NaN n g) as [ [ v | x ] g' ]; reflexivity.
Qed.

(** From state 7: a zero deviation without seed, and the seed -1. *)
Lemma generator_failures_before_sampling_witness :
  @generate_normal Stub.random 3 (Fin 0) (Fin 0) None 7 =
    (Raise (ValueError "Standard deviation must be positive"), 7) /\
  @generate_normal Stub.random 3 (Fin 0) (Fin 0) (Some (-1)) 7 =
    (Raise (ValueError "Seed must be between 0 and 2**32 - 1"), 7).
Proof.
  pose proof (generator_failures_before_sampling Stub.random 3 (Fin 0) (Fin 0)
                (Fin 2) (-1)
                (ValueError "Seed must be between 0 and 2**32 - 1") 7)
    as (Hstd & Hseed & _).
  split.
  - apply Hstd. reflexivity.
  - apply Hseed. reflexivity.
Defined.

(* ===================================================================== *)
(** ** The command-line utilities *)
(* ===================================================================== *)

Lemma printed_one_channel (dumped : outcome string) :
  one_channel
    (try_except (text <- dumped ;; Return (report_result text)) report_error).
Proof.
  destruct dumped as [ text | e ]; simpl.
  - left. exists text. reflexivity.
  - right. exists e. reflexivity.
Qed.

(** X12.  Once its command line has been parsed, that is from its [try]
    block on, each single-purpose utility writes exactly one channel:
    either a line on standard output with exit status 0, or an error record
    (message and exception type) on standard error with exit status 1;
    never both, and never an error with status 0.  (What [argparse] does
    with a command line it refuses happens before the [try] and is not
    part of these definitions.) *)
Theorem utilities_write_one_channel (L : Numeric) (J : JsonText)
    (R : NumpyRandom) (I : Importer)
    (observed expected data : outcome (list Q)) (alpha mean std a : pyfloat)
    (distribution : string) (params : outcome (option params_t))
    (n : Z) (seed : option Z) (g : rng) :
  one_channel (ChiSquaredTest.main observed expected alpha) /\
  one_channel (KsTest.main data distribution params) /\
  one_channel (fst (NormalDistribution.main n mean std seed g)) /\
  one_channel (fst (ZipfDistribution.main n a seed g)) /\
  one_channel CheckDependencies.main.
Proof.
  repeat match goal with |- _ /\ _ => split end.
  - unfold ChiSquaredTest.main.
    destruct observed as [ o | x ]; [ | right; eexists; reflexivity ].
    destruct expected as [ e | x ]; [ | right; eexists; reflexivity ].
    cbn [bind].
    destruct (ChiSquaredTest.chi_squared_test o e alpha) as [ d | x ];
      [ | right; eexists; reflexivity ].
    cbn [bind]. apply printed_one_channel.
  - unfold KsTest.main.
    destruct data as [ d | x ]; [ | right; eexists; reflexivity ].
    destruct params as [ p | x ]; [ | right; eexists; reflexivity ].
    cbn [bind].
    destruct (KsTest.ks_test d distribution p) as [ r | x ];
      [ | right; eexists; reflexivity ].
    cbn [bind]. apply printed_one_channel.
  - unfold NormalDistribution.main.
    destruct (generate_normal n mean std seed g) as [ [ values | x ] g' ];
      cbn [fst].
    + apply printed_one_channel.
    + right. eexists. reflexivity.
  - unfold ZipfDistribution.main.
    destruct (generate_zipf n a seed g) as [ [ values | x ] g' ]; cbn [fst].
    + apply printed_one_channel.
    + right. eexists. reflexivity.
  - unfold CheckDependencies.main.
    destruct CheckDependencies.check_dependencies as [ r | x ];
      [ | right; eexists; reflexivity ].
    cbn [bind]. apply printed_one_channel.
Qed.

(** X13.  Asked for a deviation that is not positive, the Normal utility
    prints nothing on standard output, reports "Standard deviation must be
    positive" with type [ValueError] on standard error and exits with
    status 1; the process-wide generator is untouched without a seed and
    reseeded with one the library accepts. *)
Theorem normal_main_rejects_deviation (R : NumpyRandom) (J : JsonText)
    (n : Z) (mean std : pyfloat) (g : rng) :
  fle std (Fin 0) = true ->
  NormalDistribution.main n mean std None g =
    ({| stdout := None;
        stderr := Some [("error", VStr "Standard deviation must be positive");
                        ("type", VStr "ValueError")];
        exit_code := 1 |}, g) /\
  (forall seed reseeded,
     np_random_seed seed = Return reseeded ->
     NormalDistribution.main n mean std (Some seed) g =
       ({| stdout := None;
           stderr := Some [("error", VStr "Standard deviation must be positive");
                           ("type", VStr "ValueError")];
           exit_code := 1 |}, reseeded)).
Proof.
  intros Hstd. split.
  - unfold NormalDistribution.main, generate_normal, gen_bind, seed_if_given,
      gen_raise.
    rewrite Hstd. reflexivity.
  - intros seed reseeded Hseed.
    unfold NormalDistribution.main, generate_normal, gen_bind, seed_if_given,
      gen_raise.
    rewrite Hseed, Hstd. reflexivity.
Qed.

Lemma normal_main_rejects_deviation_witness :
  exit_code (fst (@NormalDistribution.main Stub.random StubIO.json_text
                    3 (Fin 0) (Fin (-1 # 1)) None 7)) = 1 /\
  snd (@NormalDistribution.main Stub.random StubIO.json_text
         3 (Fin 0) (Fin (-1 # 1)) (Some 42) 7) = 42.
Proof.
  destruct (normal_main_rejects_deviation Stub.random StubIO.json_text
              3 (Fin 0) (Fin (-1 # 1)) 7) as [Hnone Hsome].
  - reflexivity.
  - split.
    + rewrite Hnone. reflexivity.
    + rewrite (Hsome 42 42) by reflexivity. reflexivity.
Defined.

(* ===================================================================== *)
(** ** The dependency check *)
(* ===================================================================== *)

(** X14.  When a failing import can only raise an import error
    ([ImportError] or any subclass of it), the dependency check always
    returns: [missing] lists, in the order numpy,
    scipy, exactly the modules whose import failed, a failure of the first
    import does not stop the second from being tried, and [all_available]
    is true exactly when both imports succeed. *)
Theorem check_dependencies_reports_missing (I : Importer) :
  (forall name e, import_module name = Raise e -> is_import_error e = true) ->
  CheckDependencies.check_dependencies =
  Return (JDict [("all_available",
                  JBool (importable "numpy" && importable "scipy"));
                 ("missing",
                  JList (map JStr
                           (filter (fun name => negb (importable name))
                                   ["numpy"; "scipy"])))]).
Proof.
  intros Honly.
  unfold CheckDependencies.check_dependencies, CheckDependencies.try_import,
    importable.
  cbn [filter].
  destruct (import_module "numpy") as [ [] | e1 ] eqn:E1;
    [ | rewrite (Honly _ _ E1) ];
    (destruct (import_module "scipy") as [ [] | e2 ] eqn:E2;
     [ | rewrite (Honly _ _ E2) ]);
    reflexivity.
Qed.

(** Only numpy is installed. *)
Lemma check_dependencies_reports_missing_witness :
  @CheckDependencies.check_dependencies (StubIO.importer ["numpy"]) =
  Return (JDict [("all_available", JBool false);
                 ("missing", JList [JStr "scipy"])]).
Proof.
  apply (check_dependencies_reports_missing (StubIO.importer ["numpy"])).
  intros name e. unfold import_module, StubIO.importer.
  destruct (existsb (String.eqb name) ["numpy"]); intros H.
  - discriminate H.
  - injection H as <-. reflexivity.
Defined.

(** X15.  An import that raises an exception which is not an instance of
    [ImportError] (nor of any subclass of it) is not caught by the check:
    the exception leaves [check_dependencies] (for numpy, before scipy is
    tried), and [main] reports it on standard error with exit status 1. *)
Theorem check_dependencies_other_exception (I : Importer) (J : JsonText)
    (e : exn) :
  is_import_error e = false ->
  (import_module "numpy" = Raise e ->
   CheckDependencies.check_dependencies = Raise e /\
   CheckDependencies.main = report_error e) /\
  (importable "numpy" = true -> import_module "scipy" = Raise e ->
   CheckDependencies.check_dependencies = Raise e /\
   CheckDependencies.main = report_error e).
Proof.
  intros Hother. split.
  - intros Hn.
    assert (E : CheckDependencies.check_dependencies = Raise e).
    { unfold CheckDependencies.check_dependencies, CheckDependencies.try_import.
      rewrite Hn, Hother. reflexivity. }
    split; [ exact E | ].
    unfold CheckDependencies.main. rewrite E. reflexivity.
  - intros Hn Hs.
    assert (E : CheckDependencies.check_dependencies = Raise e).
    { unfold CheckDependencies.check_dependencies, CheckDependencies.try_import.
      unfold importable in Hn.
      destruct (import_module "numpy") as [ [] | x ]; [ | discriminate Hn ].
      cbn [bind]. rewrite Hs, Hother. reflexivity. }
    split; [ exact E | ].
    unfold CheckDependencies.main. rewrite E. reflexivity.
Qed.

(** A numpy whose import raises an attribute error. *)
Lemma check_dependencies_other_exception_witness :
  exit_code
    (@CheckDependencies.main
       (StubIO.failing_importer
          {| exn_type := "AttributeError";
             exn_msg := "module has no attribute" |})
       StubIO.json_text) = 1.
Proof.
  rewrite (proj2 (proj1 (check_dependencies_other_exception
                           (StubIO.failing_importer
                              {| exn_type := "AttributeError";
                                 exn_msg := "module has no attribute" |})
                           StubIO.json_text
                           {| exn_type := "AttributeError";
                              exn_msg := "module has no attribute" |}
                           eq_refl)
                        eq_refl)).
  reflexivity.
Defined.

(* ===================================================================== *)
(** ** The multi-test dispatcher *)
(* ===================================================================== *)

Section Dispatcher.
Context {L : Numeric} {J : JsonText}.

Import StatisticalTestsMain.

Lemma dispatch_prints (prog test_type : string) (rest : list string)
    (result : dict) (text : string) :
  run test_type (prog :: test_type :: rest) = Return result ->
  json_dumps result = Return text ->
  main (prog :: test_type :: rest) = {| line := Some text; status := 0 |}.
Proof.
  intros Hrun Hdump. unfold main. simpl. rewrite Hrun. cbn [bind].
  rewrite Hdump. reflexivity.
Qed.

Lemma dispatch_raises (prog test_type : string) (rest : list string) (e : exn) :
  run test_type (prog :: test_type :: rest) = Raise e ->
  main (prog :: test_type :: rest) =
  print_and_fail (StatisticalTests.error_record (exn_msg e)).
Proof.
  intros Hrun. unfold main. simpl. rewrite Hrun. reflexivity.
Qed.

End Dispatcher.

(** X16.  The dispatcher's exit status does not tell a failed test from a
    successful one: an unknown test name, and a chi-squared call whose two
    tables differ in length, both end with the error record printed on
    standard output and exit status 0. *)
Theorem dispatcher_failures_exit_zero (L : Numeric) (J : JsonText)
    (prog : string) (rest : list string) (text : string) :
  (forall test_type,
     test_type <> "chi_squared" -> test_type <> "ks_test" ->
     test_type <> "anderson" -> test_type <> "shapiro" ->
     test_type <> "uniformity" ->
     json_dumps (StatisticalTests.error_record
                   ("Unknown test type: " ++ test_type)) = Return text ->
     StatisticalTestsMain.main (prog :: test_type :: rest) =
     {| StatisticalTestsMain.line := Some text;
        StatisticalTestsMain.status := 0 |}) /\
  (forall a2 a3 observed expected,
     json_loads_numbers a2 = Return observed ->
     json_loads_numbers a3 = Return expected ->
     List.length observed <> List.length expected ->
     json_dumps (StatisticalTests.error_record
                   "Observed and expected frequencies must have same length") =
       Return text ->
     StatisticalTestsMain.main (prog :: "chi_squared" :: a2 :: a3 :: rest) =
     {| StatisticalTestsMain.line := Some text;
        StatisticalTestsMain.status := 0 |}).
Proof.
  split.
  - intros test_type H1 H2 H3 H4 H5 Hdump.
    apply (dispatch_prints prog test_type rest
             (StatisticalTests.error_record ("Unknown test type: " ++ test_type))
             text); [ | exact Hdump ].
    unfold StatisticalTestsMain.run.
    apply String.eqb_neq in H1, H2, H3, H4, H5.
    rewrite H1, H2, H3, H4, H5. reflexivity.
  - intros a2 a3 observed expected Ho He Hlen Hdump.
    apply (dispatch_prints prog "chi_squared" (a2 :: a3 :: rest)
             (StatisticalTests.error_record
                "Observed and expected frequencies must have same length")
             text); [ | exact Hdump ].
    unfold StatisticalTestsMain.run. simpl. rewrite Ho. cbn [bind].
    rewrite He. cbn [bind].
    rewrite (chi_squared_length_mismatch observed expected Hlen). reflexivity.
Qed.

Lemma dispatcher_failures_exit_zero_witness :
  @StatisticalTestsMain.main Stub.numeric StubIO.json_text
     ["statistical_tests.py"; "chi_squared"; "[10, 20]"; "[10, 20, 30]"] =
  {| StatisticalTestsMain.line := Some "{}"; StatisticalTestsMain.status := 0 |}
  /\
  @StatisticalTestsMain.main Stub.numeric StubIO.json_text
     ["statistical_tests.py"; "shapiro_wilk"; "[1, 2, 4]"] =
  {| StatisticalTestsMain.line := Some "{}"; StatisticalTestsMain.status := 0 |}.
Proof.
  split.
  - apply (proj2 (dispatcher_failures_exit_zero Stub.numeric StubIO.json_text
                    "statistical_tests.py" [] "{}")
             "[10, 20]" "[10, 20, 30]"
             [10 # 1; 20 # 1]%Q [10 # 1; 20 # 1; 30 # 1]%Q);
      try reflexivity.
    simpl. lia.
  - apply (proj1 (dispatcher_failures_exit_zero Stub.numeric StubIO.json_text
                    "statistical_tests.py" ["[1, 2, 4]"] "{}") "shapiro_wilk");
      try reflexivity; discriminate.
Defined.

(** X17.  The dispatcher exits with status 1 when no test is named, with
    the error record "No test specified", and when a known test is named
    without its data argument, with the error record of the index error;
    in both cases the record goes to standard output. *)
Theorem dispatcher_missing_arguments (L : Numeric) (J : JsonText) :
  (forall argv,
     (List.length argv < 2)%nat ->
     StatisticalTestsMain.main argv =
     StatisticalTestsMain.print_and_fail
       (StatisticalTests.error_record "No test specified")) /\
  (forall prog test_type,
     In test_type ["chi_squared"; "ks_test"; "anderson"; "shapiro"; "uniformity"] ->
     StatisticalTestsMain.main [prog; test_type] =
     StatisticalTestsMain.print_and_fail
       (StatisticalTests.error_record "list index out of range")) /\
  (forall d text,
     StatisticalTestsMain.status (StatisticalTestsMain.print_and_fail d) = 1 /\
     (json_dumps d = Return text ->
      StatisticalTestsMain.line (StatisticalTestsMain.print_and_fail d) =
      Some text)).
Proof.
  split; [ | split ].
  - intros argv H. unfold StatisticalTestsMain.main.
    apply Nat.ltb_lt in H. rewrite H. reflexivity.
  - intros prog test_type Hin.
    apply (dispatch_raises prog test_type [] (IndexError "list index out of range")).
    simpl in Hin.
    destruct Hin as [ <- | [ <- | [ <- | [ <- | [ <- | [] ] ] ] ] ]; reflexivity.
  - intros d text. unfold StatisticalTestsMain.print_and_fail.
    destruct (json_dumps d) as [ t | e ]; split; try reflexivity.
    + intros H. injection H as ->. reflexivity.
    + discriminate.
Qed.

Lemma dispatcher_missing_arguments_witness :
  StatisticalTestsMain.status
    (@StatisticalTestsMain.main Stub.numeric StubIO.json_text
       ["statistical_tests.py"]) = 1 /\
  StatisticalTestsMain.status
    (@StatisticalTestsMain.main Stub.numeric StubIO.json_text
       ["statistical_tests.py"; "uniformity"]) = 1.
Proof.
  pose proof (dispatcher_missing_arguments Stub.numeric StubIO.json_text)
    as (Hnone & Hdata & Hstatus).
  split.
  - rewrite Hnone by (simpl; lia). apply (Hstatus _ "").
  - rewrite Hdata by (simpl; tauto). apply (Hstatus _ "").
Defined.

(** X18.  Omitted trailing arguments of the dispatcher mean their
    defaults: the KS and Anderson-Darling tests without a distribution run
    as with [norm], and a parameter argument that decodes to [None] is the
    same as none at all. *)
Theorem dispatcher_defaults (L : Numeric) (J : JsonText)
    (prog data distribution params_text : string) :
  StatisticalTestsMain.main [prog; "ks_test"; data] =
    StatisticalTestsMain.main [prog; "ks_test"; data; "norm"] /\
  StatisticalTestsMain.main [prog; "anderson"; data] =
    StatisticalTestsMain.main [prog; "anderson"; data; "norm"] /\
  (json_loads_params params_text = Return None ->
   StatisticalTestsMain.main [prog; "ks_test"; data; distribution; params_text] =
   StatisticalTestsMain.main [prog; "ks_test"; data; distribution]).
Proof.
  split; [ reflexivity | split; [ reflexivity | ] ].
  intros Hnone. unfold StatisticalTestsMain.main, StatisticalTestsMain.run.
  simpl. destruct (json_loads_numbers data) as [ d | e ]; [ | reflexivity ].
  cbn [bind]. rewrite Hnone. reflexivity.
Qed.

Lemma dispatcher_defaults_witness :
  @StatisticalTestsMain.main Stub.numeric StubIO.json_text
     ["statistical_tests.py"; "ks_test"; "[1, 2, 4]"; "uniform"; "null"] =
  @StatisticalTestsMain.main Stub.numeric StubIO.json_text
     ["statistical_tests.py"; "ks_test"; "[1, 2, 4]"; "uniform"].
Proof.
  apply (proj2 (proj2 (dispatcher_defaults Stub.numeric StubIO.json_text
                         "statistical_tests.py" "[1, 2, 4]" "uniform" "null"))).
  reflexivity.
Defined.

(* ===================================================================== *)
(** ** The ladder of levels against the logistic family *)
(* ===================================================================== *)

(** C4.  The claim fails on the logistic family, which the runner lists
    among its four: there the library returns six critical values, and on
    the sample of ten 0s and ten 100s the statistic exceeds all six.  The
    scan then indexes past the five hard-coded levels and the runner
    answers with the error record of the index error: the record has no
    [rejected_at] and no [significant] at all, where the claim has the
    strictest level and true. *)
Theorem anderson_logistic_overflows_the_ladder :
  exists (statistic : pyfloat) (critical_values : list pyfloat),
    @stats_anderson StubIO.six_levels
       (repeat (0 # 1)%Q 10 ++ repeat (100 # 1)%Q 10) "logistic" =
      Return (statistic, critical_values) /\
    List.length critical_values = 6%nat /\
    exceeded_prefix statistic critical_values = 6%nat /\
    @StatisticalTests.anderson_darling_test StubIO.six_levels
       (repeat (0 # 1)%Q 10 ++ repeat (100 # 1)%Q 10) "logistic" =
      StatisticalTests.error_record "list index out of range" /\
    dict_get "rejected_at"
      (@StatisticalTests.anderson_darling_test StubIO.six_levels
         (repeat (0 # 1)%Q 10 ++ repeat (100 # 1)%Q 10) "logistic") = None /\
    dict_get "significant"
      (@StatisticalTests.anderson_darling_test StubIO.six_levels
         (repeat (0 # 1)%Q 10 ++ repeat (100 # 1)%Q 10) "logistic") = None.
Proof.
  eexists. eexists.
  split; [ reflexivity | ].
  repeat split; vm_compute; reflexivity.
Qed.
